(** * GoHz / analize: aggregation, derivation, segmentation and diff

    A shallow embedding of the [analize] command of GoHz (package [main] under
    [analize/]: util, aubio, ffmpeg probes, analyze, silence_split, compare)
    and the properties its specification states about it.

    Numbers are the program's own: Go's [float64] is the kernel's binary64
    [float] (IEEE 754 addition, subtraction, multiplication, division and
    square root, correctly rounded), Go's [int]/[int64] is [Z] with the 64-bit
    wrap-around written out; every floating-point operation is rounded on
    its own, as on amd64 (Go may fuse [x*y + z] on other machines).  A nil
    pointer is [None].  The external tools
    (ffprobe, ffmpeg, aubio) are a record of what their output holds once the
    source's regular expressions have picked the numbers out of it; everything
    the source computes from those captures is computed here. *)

From Stdlib Require Import ZArith Floats String Ascii List Bool Lia.
From Stdlib Require Import Sorted Permutation.
From stdpp Require Import gmap strings pretty.

Set Warnings "-inexact-float".

Local Open Scope Z_scope.

(** ** The Go runtime and library functions the source calls *)

Module Go.

Definition float64 := float.

(** *** [int] and [int64]: 64-bit two's complement *)

Definition minInt64 : Z := - 2 ^ 63.
Definition maxInt64 : Z := 2 ^ 63 - 1.

Definition wrap64 (z : Z) : Z := (z + 2 ^ 63) mod 2 ^ 64 - 2 ^ 63.

Definition int_add (a b : Z) : Z := wrap64 (a + b).
Definition int_sub (a b : Z) : Z := wrap64 (a - b).
Definition int_mul (a b : Z) : Z := wrap64 (a * b).
(** [/] and [%] truncate toward zero; the divisors in the source are the
    constant 12. *)
Definition int_quo (a b : Z) : Z := wrap64 (Z.quot a b).
Definition int_rem (a b : Z) : Z := Z.rem a b.

(** *** Conversions between [float64] and integers *)

(** [float64(n)]: the nearest binary64 value, ties to even. *)
Definition float64_of_int (n : Z) : float :=
  SF2Prim (binary_normalize prec emax n 0 false).

(** The integer part of a finite value, toward zero. *)
Definition trunc_SF (x : spec_float) : option Z :=
  match x with
  | S754_zero _ => Some 0
  | S754_finite s m e =>
      let a := if 0 <=? e then Z.pos m * 2 ^ e else Z.pos m / 2 ^ (- e) in
      Some (if s then - a else a)
  | _ => None
  end.

(** [int64(x)] and [int(x)]: truncation toward zero.  Go leaves the result
    open when the value does not fit; amd64's CVTTSD2SQ gives the smallest
    [int64] then, and so does this definition. *)
Definition int64_of_float64 (x : float) : Z :=
  match trunc_SF (Prim2SF x) with
  | Some v => if (minInt64 <=? v) && (v <=? maxInt64) then v else minInt64
  | None => minInt64
  end.

(** *** Package [math] *)

Definition NaN : float := nan.
Definition MaxFloat64 : float := 0x1.fffffffffffffp1023%float.

Definition IsNaN (f : float) : bool := negb (f =? f)%float.

Definition IsInf (f : float) (sign : Z) : bool :=
  ((0 <=? sign) && (MaxFloat64 <? f)%float)
  || ((sign <=? 0) && (f <? - MaxFloat64)%float).

Definition Inf (sign : Z) : float :=
  if 0 <=? sign then infinity else neg_infinity.

Definition Signbit (x : float) : bool := get_sign x.

Definition Min (x y : float) : float :=
  if IsInf x (-1) || IsInf y (-1) then Inf (-1)
  else if IsNaN x || IsNaN y then NaN
  else if (x =? 0)%float && (x =? y)%float then
    (if Signbit x then x else y)
  else if (x <? y)%float then x else y.

Definition Max (x y : float) : float :=
  if IsInf x 1 || IsInf y 1 then Inf 1
  else if IsNaN x || IsNaN y then NaN
  else if (x =? 0)%float && (x =? y)%float then
    (if Signbit x then y else x)
  else if (y <? x)%float then x else y.

Definition Sqrt (x : float) : float := PrimFloat.sqrt x.

(** [math.Round]: the nearest integer, halves away from zero; zeros,
    infinities and NaN are returned as they are. *)
Definition Round (x : float) : float :=
  match Prim2SF x with
  | S754_finite s m e =>
      if 0 <=? e then x
      else
        let d := 2 ^ (- e) in
        let q := Z.pos m / d in
        let r := Z.pos m mod d in
        let n := if d <=? 2 * r then q + 1 else q in
        if n =? 0 then (if s then PrimFloat.neg_zero else PrimFloat.zero)
        else float64_of_int (if s then - n else n)
  | _ => x
  end.

(** *** Package [strings] *)

Definition lower_ascii (c : ascii) : ascii :=
  let n := nat_of_ascii c in
  if (65 <=? n)%nat && (n <=? 90)%nat then ascii_of_nat (n + 32) else c.

(** [strings.ToLower] on the ASCII letters; other bytes are kept. *)
Fixpoint ToLower (s : string) : string :=
  match s with
  | EmptyString => EmptyString
  | String c r => String (lower_ascii c) (ToLower r)
  end.

(** *** Package [fmt]: the verbs the source uses *)

(** [%d] *)
Definition fmt_d (n : Z) : string := pretty n.

Fixpoint zeros (k : nat) : string :=
  match k with
  | O => EmptyString
  | S k' => String "0" (zeros k')
  end.

(** An unsigned integer on at least [w] digits, zeros to the left. *)
Definition pad_digits (w : nat) (n : Z) : string :=
  let s := pretty n in
  (zeros (w - String.length s) +:+ s)%string.

(** [%.<p>f]: the exact binary value in decimal with [p] digits after the
    point, the last one rounded to nearest, ties to even. *)
Definition fmt_f (p : nat) (x : float) : string :=
  let frac (n : Z) :=
    match p with
    | O => EmptyString
    | _ => ("." +:+ pad_digits p n)%string
    end in
  match Prim2SF x with
  | S754_nan => "NaN"%string
  | S754_infinity s => if s then "-Inf"%string else "+Inf"%string
  | S754_zero s => ((if s then "-" else "") +:+ "0" +:+ frac 0)%string
  | S754_finite s m e =>
      let scale := 10 ^ Z.of_nat p in
      let num := if 0 <=? e then Z.pos m * 2 ^ e * scale else Z.pos m * scale in
      let den := if 0 <=? e then 1 else 2 ^ (- e) in
      let q := num / den in
      let r := num mod den in
      let n := if 2 * r <? den then q
               else if den <? 2 * r then q + 1
               else if Z.even q then q else q + 1 in
      ((if s then "-" else "") +:+ pretty (n / scale) +:+ frac (n mod scale))%string
  end.

End Go.

Import Go.

(** ** Results of fallible and of panicking code *)

(** A Go call that returns [(T, error)], or that stops with a run-time panic
    (the only one the source can raise is an index out of range). *)
Inductive outcome (A : Type) : Type :=
| Ok (a : A)
| Err (msg : string)
| Panic (msg : string).

Arguments Ok {A} a.
Arguments Err {A} msg.
Arguments Panic {A} msg.

#[global] Instance outcome_ret : MRet outcome := fun A a => Ok a.

#[global] Instance outcome_bind : MBind outcome := fun A B f x =>
  match x with
  | Ok a => f a
  | Err e => Err e
  | Panic p => Panic p
  end.

(** ** Configuration (config.go) *)

Record Bandspec := { Lo : float; Hi : float }.

Record Config := {
  OutPath : string;
  Report : string;
  FFmpegBin : string;
  FFprobeBin : string;
  AubioBin : string;
  BPMEngine : string;
  UseBands : bool;
  Bands : list Bandspec;
  UseEBUR128 : bool;
  AstatsWin : float;
  SilThresDB : float
}.

(** ** The data model (types.go)

    Every struct is a record in a module of its name, so that the fields keep
    the names they have in the source; a [*float64], [*int64] or [*string]
    field is an [option]. *)

Module ProbeInfo.
Record ProbeInfo := {
  FormatName : string;
  Duration : float;
  SampleRate : Z;
  Channels : Z;
  BitRate : Z;
  BitDepth : Z
}.
End ProbeInfo.

Module LevelStats.
Record LevelStats := {
  PeakDB : float;
  RMSDB : float;
  CrestDB : float;
  TruePeakDBTP : option float;
  HeadroomDB : float;
  DCOffset : float;
  ZeroXRate : float;
  NoiseFloor : float;
  ClipSamples : option Z;
  ClipPercent : option float
}.

(** Assignments to one field of a value of the struct. *)
Definition set_TruePeakDBTP (v : option float) (l : LevelStats) : LevelStats :=
  {| PeakDB := PeakDB l; RMSDB := RMSDB l; CrestDB := CrestDB l;
     TruePeakDBTP := v; HeadroomDB := HeadroomDB l; DCOffset := DCOffset l;
     ZeroXRate := ZeroXRate l; NoiseFloor := NoiseFloor l;
     ClipSamples := ClipSamples l; ClipPercent := ClipPercent l |}.
Definition set_HeadroomDB (v : float) (l : LevelStats) : LevelStats :=
  {| PeakDB := PeakDB l; RMSDB := RMSDB l; CrestDB := CrestDB l;
     TruePeakDBTP := TruePeakDBTP l; HeadroomDB := v; DCOffset := DCOffset l;
     ZeroXRate := ZeroXRate l; NoiseFloor := NoiseFloor l;
     ClipSamples := ClipSamples l; ClipPercent := ClipPercent l |}.
Definition set_ClipSamples (v : option Z) (l : LevelStats) : LevelStats :=
  {| PeakDB := PeakDB l; RMSDB := RMSDB l; CrestDB := CrestDB l;
     TruePeakDBTP := TruePeakDBTP l; HeadroomDB := HeadroomDB l;
     DCOffset := DCOffset l; ZeroXRate := ZeroXRate l;
     NoiseFloor := NoiseFloor l; ClipSamples := v;
     ClipPercent := ClipPercent l |}.
Definition set_ClipPercent (v : option float) (l : LevelStats) : LevelStats :=
  {| PeakDB := PeakDB l; RMSDB := RMSDB l; CrestDB := CrestDB l;
     TruePeakDBTP := TruePeakDBTP l; HeadroomDB := HeadroomDB l;
     DCOffset := DCOffset l; ZeroXRate := ZeroXRate l;
     NoiseFloor := NoiseFloor l; ClipSamples := ClipSamples l;
     ClipPercent := v |}.
End LevelStats.

Module LUFS.
Record LUFS := {
  Integrated : float;
  Range : float;
  TruePeak : option float
}.
End LUFS.

Module BandStat.
Record BandStat := {
  Band : Bandspec;
  PeakDB : float;
  RMSDB : float
}.
End BandStat.

Module StereoStats.
Record StereoStats := {
  MidRMS : float;
  SideRMS : float;
  SideMidRatioDB : float;
  Correlation : option float
}.
End StereoStats.

Module SpectralStats.
Record SpectralStats := {
  Centroid : option float;
  Rolloff95 : option float;
  Flatness : option float;
  Spread : option float;
  Skewness : option float;
  Kurtosis : option float
}.
End SpectralStats.

Module TempoStats.
Record TempoStats := {
  BPMMedian : option float;
  BPMMean : option float;
  BPMStd : option float;
  Events : Z;
  OnsetPerMin : option float
}.
End TempoStats.

Module PitchStats.
Record PitchStats := {
  HzMedian : option float;
  HzMean : option float;
  HzMin : option float;
  HzMax : option float;
  MIDIMedian : option float;
  Note : option string
}.
End PitchStats.

Module KeyInfo.
Record KeyInfo := {
  Key : option string;
  Scale : option string;
  Conf : option float
}.
End KeyInfo.

Module SilenceSpan.
Record SilenceSpan := { Start : float; End_ : float }.
End SilenceSpan.

Import ProbeInfo LUFS StereoStats SpectralStats TempoStats PitchStats SilenceSpan.
Abbreviation ProbeInfo := ProbeInfo.ProbeInfo.
Abbreviation LevelStats := LevelStats.LevelStats.
Abbreviation LUFS := LUFS.LUFS.
Abbreviation BandStat := BandStat.BandStat.
Abbreviation StereoStats := StereoStats.StereoStats.
Abbreviation SpectralStats := SpectralStats.SpectralStats.
Abbreviation TempoStats := TempoStats.TempoStats.
Abbreviation PitchStats := PitchStats.PitchStats.
Abbreviation KeyInfo := KeyInfo.KeyInfo.
Abbreviation SilenceSpan := SilenceSpan.SilenceSpan.

Module Analysis.
Record Analysis := {
  File : string;
  When : string;
  Probe : ProbeInfo;
  Level : LevelStats;
  Loudness : option LUFS;
  Stereo : StereoStats;
  Spectral : SpectralStats;
  Bands : list BandStat;
  Tempo : option TempoStats;
  Pitch : option PitchStats;
  Key : option KeyInfo;
  Silence : list SilenceSpan;
  SilenceRatio : option float;
  SilenceTotal : option float;
  Notes : list string
}.
End Analysis.
Abbreviation Analysis := Analysis.Analysis.

Record Diff := {
  A : Analysis;
  B : Analysis;
  Delta : gmap string float
}.

(** ** util.go *)

Definition mean (xs : list float) : float :=
  match xs with
  | [] => NaN
  | _ =>
      let s := fold_left (fun s v => s + v)%float xs 0%float in
      (s / float64_of_int (Z.of_nat (length xs)))%float
  end.

Definition stddev (xs : list float) (m : float) : float :=
  if (length xs <? 2)%nat then 0%float
  else
    let s := fold_left (fun s v => let d := (v - m)%float in s + d * d)%float
                       xs 0%float in
    Sqrt (s / float64_of_int (Z.of_nat (length xs) - 1))%float.

Definition notes : list string :=
  ["C"; "C#"; "D"; "D#"; "E"; "F"; "F#"; "G"; "G#"; "A"; "A#"; "B"]%string.

(** [notes[n]] panics when [n] is negative; [(m + 1200) % 12] is below 12. *)
Definition midiToNoteName (m : Z) : outcome string :=
  let n := int_rem (int_add m 1200) 12 in
  let oct := int_sub (int_quo m 12) 1 in
  if n <? 0 then Panic "index out of range"
  else
    match notes !! Z.to_nat n with
    | Some name => Ok (name +:+ fmt_d oct)%string
    | None => Panic "index out of range"
    end.

Definition derefFloat (p : option float) : float :=
  match p with
  | None => NaN
  | Some v => v
  end.

(** [sort.Float64s]: ascending order, by insertion. *)
Fixpoint insert_sorted (x : float) (l : list float) : list float :=
  match l with
  | [] => [x]
  | y :: r => if (x <=? y)%float then x :: l else y :: insert_sorted x r
  end.

Definition Float64s (l : list float) : list float :=
  fold_right insert_sorted [] l.

(** [xs[i]] on a slice the caller knows to be long enough. *)
Definition index (xs : list float) (i : nat) : float := nth i xs 0%float.

Section WithLog2.

(** [math.Log2], which the kernel's floats do not provide. *)
Variable Log2 : float -> float.

Definition hzToMIDI (hz : float) : float := (69 + 12 * Log2 (hz / 440.0))%float.

(** ** aubio.go

    Each function gets what the source's scanner and regular expression take
    from aubio's output: [haveAubio] is [mustHave(cfg.AubioBin) == nil]. *)

(** [failed] is [err != nil && out == ""]; [vals] the numbers before "bpm",
    line by line. *)
Definition aubioBPMSeries (haveAubio failed : bool) (vals : list float)
  : outcome (list float) :=
  if negb haveAubio then Err "aubio not found"
  else if failed then Err "aubio tempo failed"
  else if (length vals =? 0)%nat then Err "no bpm series"
  else Ok vals.

(** [count] is the number of output lines that start with a number. *)
Definition aubioOnsetRate (haveAubio : bool) (count : Z) (durSec : float)
  : outcome (option float * Z) :=
  if negb haveAubio then Err "aubio not found"
  else if (durSec <=? 0)%float then Ok (None, count)
  else Ok (Some (float64_of_int count / (durSec / 60.0))%float, count).

(** [parsed] holds the number read from the last field of each line that
    has one. *)
Definition aubioPitchStats (haveAubio : bool) (parsed : list float)
  : outcome PitchStats :=
  if negb haveAubio then Err "aubio not found"
  else
    let Hz := List.filter (fun v => (0 <? v)%float) parsed in
    if (length Hz =? 0)%nat then
      Ok {| HzMedian := None; HzMean := None; HzMin := None; HzMax := None;
            MIDIMedian := None; Note := None |}
    else
      let Hz := Float64s Hz in
      let med := index Hz (length Hz / 2) in
      let mean := mean Hz in
      let minv := index Hz 0 in
      let maxv := index Hz (length Hz - 1) in
      let midi := hzToMIDI med in
      note ← midiToNoteName (int64_of_float64 (Round midi));
      Ok {| HzMedian := Some med; HzMean := Some mean; HzMin := Some minv;
            HzMax := Some maxv; MIDIMedian := Some midi; Note := Some note |}.

(** [keyMatch] is the first match of the key expression, the upper-cased
    key letter and the scale name (empty when the optional group took
    nothing); [confMatch] the number after "confidence". *)
Definition aubioKey (haveAubio : bool) (keyMatch : option (string * string))
           (confMatch : option float) : outcome KeyInfo :=
  if negb haveAubio then Err "aubio not found"
  else
    let key := fst <$> keyMatch in
    let scale :=
      match keyMatch with
      | Some (_, s) => if String.eqb s "" then None else Some s
      | None => None
      end in
    let conf := confMatch in
    match key, scale, conf with
    | None, None, None =>
        Ok {| KeyInfo.Key := None; KeyInfo.Scale := None; KeyInfo.Conf := None |}
    | _, _, _ =>
        Ok {| KeyInfo.Key := key; KeyInfo.Scale := scale; KeyInfo.Conf := conf |}
    end.

End WithLog2.

(** ** ffmpeg.go

    The probes run a tool and read numbers out of its text.  Each function
    below takes the captures of the source's regular expressions ([None]: no
    match) and does what the source does with them.  A Go result [(v, err)]
    is a pair whose second component is [None] for a nil error. *)

Definition error := option string.

Definition ffmpegVolumedetect (m1 m2 : option float) : float * float * error :=
  match m1, m2 with
  | Some peak, Some rms => (peak, rms, None)
  | _, _ => (0%float, 0%float, Some "volumedetect parse failed"%string)
  end.

Definition ffmpegAstatsOverall (stats : gmap string float)
  : gmap string float * error :=
  if (size stats =? 0)%nat then (stats, Some "no astats parsed"%string)
  else (stats, None).

Definition ffmpegEBUR128 (mI mR mTP : option float) : LUFS * error :=
  match mI with
  | None =>
      ({| Integrated := 0; Range := 0; TruePeak := None |},
       Some "no integrated"%string)
  | Some i =>
      ({| Integrated := i;
          Range := match mR with Some r => r | None => 0%float end;
          TruePeak := mTP |}, None)
  end.

Definition ffmpegBandLoudness (m1 m2 : option float) : float * float * error :=
  match m1, m2 with
  | Some peak, Some rms => (peak, rms, None)
  | _, _ => (0%float, 0%float, Some "band parse failed"%string)
  end.

(** [vals]: the "Overall RMS level" numbers in the order ffmpeg prints them;
    [corr]: the "Overall channel correlation" number. *)
Definition ffmpegStereoStuff (vals : list float) (corr : option float)
  : StereoStats :=
  let '(mid, side) :=
    if (4 <=? length vals)%nat then
      (((index vals 2 + index vals 3) / 2)%float,
       ((index vals 0 + index vals 1) / 2)%float)
    else if (2 <=? length vals)%nat then (index vals 0, index vals 1)
    else (0%float, 0%float) in
  {| MidRMS := mid; SideRMS := side; SideMidRatioDB := (side - mid)%float;
     Correlation := corr |}.

(** One output line of silencedetect: the number after "silence_start:" and
    the number after "silence_end:", when the line has them. *)
Definition silenceLine : Type := option float * option float.

Fixpoint scanSilences (lines : list silenceLine) (start : option float)
         (spans : list SilenceSpan) : list SilenceSpan :=
  match lines with
  | [] => spans
  | (mS, mE) :: rest =>
      let start := match mS with Some v => Some v | None => start end in
      match mE, start with
      | Some e, Some s =>
          scanSilences rest None (spans ++ [{| Start := s; End_ := e |}])
      | _, _ => scanSilences rest start spans
      end
  end.

Definition detectSilences (lines : list silenceLine) : list SilenceSpan :=
  scanSilences lines None [].

(** ** What the tools say about one input file

    One value of [Tools] fixes the outcome of every external call that
    [analyzeFile] makes for a given configuration and input. *)
Record Tools := {
  statOK : bool;                           (* os.Stat(in) *)
  ffprobeInfo : outcome ProbeInfo;         (* ffprobe, decoded *)
  volMax : option float;                   (* max_volume *)
  volMean : option float;                  (* mean_volume *)
  astats : gmap string float;              (* "Overall <name>: <number>" *)
  eburI : option float;
  eburR : option float;
  eburTP : option float;
  ffmpegSpectral : SpectralStats;
  stereoRMS : list float;
  stereoCorr : option float;
  bandMax : Bandspec -> option float;
  bandMean : Bandspec -> option float;
  silenceLines : list silenceLine;
  haveAubio : bool;
  tempoFailed : bool;
  tempoBPM : list float;
  onsetCount : Z;
  pitchHz : list float;
  keyMatch : option (string * string);
  keyConf : option float;
  now : string                             (* time.Now().Format(time.RFC3339) *)
}.

(** ** analyze.go

    [analyzeFile] is one long function; its blocks ("levels", "clips",
    "Headroom", "LUFS + TruePeak", "bands", "silence", "bpm/onset",
    "pitch + key", "hints") are the definitions below, in the order in which
    the function runs them. *)

(** "levels": peak and RMS from volumedetect (both 0 when it fails, the error
    is dropped), the crest factor, and three entries of the astats map, a
    missing entry reading as 0. *)
Definition levels (t : Tools) : LevelStats * gmap string float :=
  let '(peak, rms, _) := ffmpegVolumedetect (volMax t) (volMean t) in
  let '(astatsMap, _) := ffmpegAstatsOverall (astats t) in
  ({| LevelStats.PeakDB := peak; LevelStats.RMSDB := rms;
      LevelStats.CrestDB := (peak - rms)%float;
      LevelStats.TruePeakDBTP := None;
      LevelStats.HeadroomDB := 0%float;
      LevelStats.DCOffset := default 0%float (astatsMap !! "dc_offset"%string);
      LevelStats.ZeroXRate :=
        default 0%float (astatsMap !! "zero_crossings_rate"%string);
      LevelStats.NoiseFloor :=
        default 0%float (astatsMap !! "noise_floor"%string);
      LevelStats.ClipSamples := None; LevelStats.ClipPercent := None |},
   astatsMap).

(** "clips": the count when astats exposes it, and the percentage when the
    probe gives a positive duration, sample rate and channel count. *)
Definition clipStats (probe : ProbeInfo) (astatsMap : gmap string float)
           (lv : LevelStats) : LevelStats :=
  match astatsMap !! "number_of_clipped_samples"%string with
  | Some v =>
      let c := int64_of_float64 v in
      let lv := LevelStats.set_ClipSamples (Some c) lv in
      if (0 <? Duration probe)%float && (0 <? SampleRate probe)
         && (0 <? Channels probe) then
        let total :=
          (Duration probe
           * float64_of_int (int_mul (SampleRate probe) (Channels probe)))%float in
        let p := (100.0 * float64_of_int c / total)%float in
        LevelStats.set_ClipPercent (Some p) lv
      else lv
  | None => lv
  end.

(** "Headroom" *)
Definition headroom (lv : LevelStats) : LevelStats :=
  LevelStats.set_HeadroomDB (0 - LevelStats.PeakDB lv)%float lv.

(** "LUFS + TruePeak": the loudness record when ebur128 is enabled and
    succeeds, and its true peak copied into the level statistics. *)
Definition loudness (cfg : Config) (t : Tools) (lv : LevelStats)
  : option LUFS * LevelStats :=
  if UseEBUR128 cfg then
    match ffmpegEBUR128 (eburI t) (eburR t) (eburTP t) with
    | (v, None) =>
        (Some v,
         match TruePeak v with
         | Some tp => LevelStats.set_TruePeakDBTP (Some tp) lv
         | None => lv
         end)
    | (_, Some _) => (None, lv)
    end
  else (None, lv).

(** "bands": one entry per band whose probe succeeds, in order. *)
Definition bandStats (cfg : Config) (t : Tools) : list BandStat :=
  if UseBands cfg then
    fold_left
      (fun acc b =>
         match ffmpegBandLoudness (bandMax t b) (bandMean t b) with
         | (p, r, None) =>
             acc ++ [{| BandStat.Band := b; BandStat.PeakDB := p;
                        BandStat.RMSDB := r |}]
         | (_, _, Some _) => acc
         end)
      (Bands cfg) []
  else [].

(** "silence": the ratio and the total of the silence spans. *)
Definition silenceStats (probe : ProbeInfo) (sil : list SilenceSpan)
  : option float * option float :=
  if (0 <? length sil)%nat then
    let dur :=
      fold_left (fun dur sp => dur + (End_ sp - Start sp))%float sil 0%float in
    (if (0 <? Duration probe)%float then Some (dur / Duration probe)%float
     else None,
     Some dur)
  else (None, None).

(** "bpm/onset": taken only for the aubio engine and a series that
    [aubioBPMSeries] returns without error. *)
Definition tempoStats (cfg : Config) (t : Tools) (probe : ProbeInfo)
  : option TempoStats :=
  if String.eqb (ToLower (BPMEngine cfg)) "aubio" then
    match aubioBPMSeries (haveAubio t) (tempoFailed t) (tempoBPM t) with
    | Ok series =>
        let med := index series (length series / 2) in
        let mu := mean series in
        let sd := stddev series mu in
        let '(onr, events) :=
          match aubioOnsetRate (haveAubio t) (onsetCount t) (Duration probe) with
          | Ok r => r
          | _ => (None, 0)
          end in
        Some {| BPMMedian := Some med; BPMMean := Some mu; BPMStd := Some sd;
                Events := events; OnsetPerMin := onr |}
    | _ => None
    end
  else None.

(** "pitch + key": the key is kept when [aubioKey] returns no error. *)
Definition keyInfo (t : Tools) : option KeyInfo :=
  match aubioKey (haveAubio t) (keyMatch t) (keyConf t) with
  | Ok k => Some k
  | _ => None
  end.

(** "hints" *)
Definition diagnosticNotes (lv : LevelStats) (spec : SpectralStats)
           (st : StereoStats) : list string :=
  let notes : list string := [] in
  let notes :=
    match LevelStats.ClipSamples lv with
    | Some c =>
        if 0 <? c then
          notes ++ [("Clipping detected: " +:+ fmt_d c +:+ " samples ("
                     +:+ fmt_f 3 (derefFloat (LevelStats.ClipPercent lv))
                     +:+ "%)")%string]
        else notes
    | None => notes
    end in
  let notes :=
    match LevelStats.TruePeakDBTP lv with
    | Some tp =>
        if (-1.0 <? tp)%float then
          notes ++ [("True peak dangerously high (" +:+ fmt_f 2 tp
                     +:+ " dBTP). Consider -1.5 dBTP ceiling.")%string]
        else notes
    | None => notes
    end in
  let notes :=
    match Flatness spec with
    | Some f =>
        if (0.5 <? f)%float then
          notes ++ ["High spectral flatness → noise-like content."%string]
        else notes
    | None => notes
    end in
  let notes :=
    match Correlation st with
    | Some c =>
        if (c <? 0.2)%float then
          notes ++ ["Low L/R correlation → wide or phasey stereo."%string]
        else notes
    | None => notes
    end in
  notes.

Section Analyze.

Variable Log2 : float -> float.

(** "pitch + key": an error of [aubioPitchStats] is dropped and leaves the
    pitch nil; a panic stops the program. *)
Definition pitchStats (t : Tools) : outcome (option PitchStats) :=
  match aubioPitchStats Log2 (haveAubio t) (pitchHz t) with
  | Ok p => Ok (Some p)
  | Err _ => Ok None
  | Panic m => Panic m
  end.

Definition analyzeFile (cfg : Config) (inp : string) (t : Tools)
  : outcome Analysis :=
  if negb (statOK t) then Err "stat" else
  probe ← ffprobeInfo t;
  let '(lv, astatsMap) := levels t in
  let lv := clipStats probe astatsMap lv in
  let lv := headroom lv in
  let '(lufs, lv) := loudness cfg t lv in
  let spec := ffmpegSpectral t in
  let st := ffmpegStereoStuff (stereoRMS t) (stereoCorr t) in
  let bands := bandStats cfg t in
  let sil := detectSilences (silenceLines t) in
  let '(silRatio, silTotal) := silenceStats probe sil in
  let tempo := tempoStats cfg t probe in
  ps ← pitchStats t;
  let key := keyInfo t in
  let notes := diagnosticNotes lv spec st in
  Ok {| Analysis.File := inp; Analysis.When := now t;
        Analysis.Probe := probe; Analysis.Level := lv;
        Analysis.Loudness := lufs; Analysis.Stereo := st;
        Analysis.Spectral := spec; Analysis.Bands := bands;
        Analysis.Tempo := tempo; Analysis.Pitch := ps; Analysis.Key := key;
        Analysis.Silence := sil; Analysis.SilenceRatio := silRatio;
        Analysis.SilenceTotal := silTotal; Analysis.Notes := notes |}.

End Analyze.

(** ** compare.go *)

Definition compare (a b : Analysis) : Diff :=
  let la := Analysis.Level a in
  let lb := Analysis.Level b in
  let d : gmap string float := ∅ in
  let d := <["peak_db"%string := (LevelStats.PeakDB lb - LevelStats.PeakDB la)%float]> d in
  let d := <["rms_db"%string := (LevelStats.RMSDB lb - LevelStats.RMSDB la)%float]> d in
  let d := <["crest_db"%string := (LevelStats.CrestDB lb - LevelStats.CrestDB la)%float]> d in
  let d :=
    match Analysis.Loudness a, Analysis.Loudness b with
    | Some ua, Some ub =>
        let d := <["lufs_integrated"%string := (Integrated ub - Integrated ua)%float]> d in
        <["lufs_range"%string := (Range ub - Range ua)%float]> d
    | _, _ => d
    end in
  let d :=
    <["stereo_side_mid_db"%string :=
        (SideMidRatioDB (Analysis.Stereo b) - SideMidRatioDB (Analysis.Stereo a))%float]> d in
  let d :=
    match Analysis.Tempo a, Analysis.Tempo b with
    | Some ta, Some tb =>
        match BPMMedian ta, BPMMedian tb with
        | Some ma, Some mb => <["bpm_median"%string := (mb - ma)%float]> d
        | _, _ => d
        end
    | _, _ => d
    end in
  let d :=
    <["duration_s"%string :=
        (Duration (Analysis.Probe b) - Duration (Analysis.Probe a))%float]> d in
  {| A := a; B := b; Delta := d |}.

(** ** silence_split.go *)

Record segment := { start : float; end_ : float }.

(** The segments between the silence spans that last at least [minSilDur]. *)
Fixpoint cutSegments (spans : list SilenceSpan) (minSilDur : float)
         (start : float) (segs : list segment) : list segment * float :=
  match spans with
  | [] => (segs, start)
  | s :: rest =>
      if (minSilDur <=? End_ s - Start s)%float then
        cutSegments rest minSilDur (End_ s)
                    (segs ++ [{| start := start; end_ := Start s |}])
      else cutSegments rest minSilDur start segs
  end.

Definition buildSegments (spans : list SilenceSpan) (dur minSilDur : float)
  : list segment :=
  let '(segs, start) := cutSegments spans minSilDur 0%float [] in
  if (start <? dur)%float then segs ++ [{| start := start; end_ := dur |}]
  else segs.

(** The clamped trim of one segment. *)
Definition trimSegment (trim : float) (sg : segment) : segment :=
  let s := start sg in
  let e := end_ sg in
  if (0 <? trim)%float then
    let s := Min e (s + trim)%float in
    let e := Max s (e - trim)%float in
    {| start := s; end_ := e |}
  else {| start := s; end_ := e |}.

(** One call of ffmpeg: part number [i+1], ["-ss"] and ["-to"]. *)
Record cut := { part : nat; ss : float; to : float }.

(** The loop over the segments; [run] tells whether ffmpeg succeeds on a
    cut.  The result is the cuts written and the error, if one stopped the
    loop. *)
Fixpoint cutLoop (run : cut -> bool) (trim : float) (i : nat)
         (segs : list segment) (outs : list cut) : list cut * error :=
  match segs with
  | [] => (outs, None)
  | sg :: rest =>
      let sg' := trimSegment trim sg in
      let c := {| part := i + 1; ss := start sg'; to := end_ sg' |} in
      if run c then cutLoop run trim (i + 1) rest (outs ++ [c])
      else (outs, Some "ffmpeg split"%string)
  end.

Definition splitBySilence (run : cut -> bool) (a : Analysis)
           (minSilDur trim : float) : list cut * error :=
  let spans := Analysis.Silence a in
  let dur := Duration (Analysis.Probe a) in
  let segs := buildSegments spans dur minSilDur in
  if (length segs <=? 1)%nat then ([], None)
  else cutLoop run trim 0 segs [].

(** ** Values used in the statements below *)

(** [math.Log2] where it is exact: for a power of two [Frexp] gives the
    fraction 0.5 and [math.Log2] returns [float64(exp - 1)].  On every other
    argument the library goes through [math.Log]; this function is NaN
    there. *)
Definition Log2_pow2 (x : float) : float :=
  let '(frac, exp) := Z.frexp x in
  if (frac =? 0.5)%float then float64_of_int (exp - 1) else NaN.

(** [defaultConfig()]; the band list is what [parseBands] reads from the
    default flag value. *)
Definition defaultConfig : Config :=
  {| OutPath := "out.log"; Report := "txt"; FFmpegBin := "ffmpeg";
     FFprobeBin := "ffprobe"; AubioBin := "aubio"; BPMEngine := "none";
     UseBands := true;
     Bands := [ {| Lo := 20; Hi := 60 |}; {| Lo := 60; Hi := 120 |};
                {| Lo := 120; Hi := 250 |}; {| Lo := 250; Hi := 500 |};
                {| Lo := 500; Hi := 2000 |}; {| Lo := 2000; Hi := 5000 |};
                {| Lo := 5000; Hi := 10000 |}; {| Lo := 10000; Hi := 20000 |} ]%float;
     UseEBUR128 := true; AstatsWin := 0; SilThresDB := (-45)%float |}.

(** The default configuration with [-bpm-engine aubio]. *)
Definition aubioConfig : Config :=
  {| OutPath := OutPath defaultConfig; Report := Report defaultConfig;
     FFmpegBin := FFmpegBin defaultConfig; FFprobeBin := FFprobeBin defaultConfig;
     AubioBin := AubioBin defaultConfig; BPMEngine := "aubio";
     UseBands := UseBands defaultConfig; Bands := Bands defaultConfig;
     UseEBUR128 := UseEBUR128 defaultConfig; AstatsWin := AstatsWin defaultConfig;
     SilThresDB := SilThresDB defaultConfig |}.

(** Twenty seconds of stereo at 12.5 kHz: 500000 samples. *)
Definition stereo20s : ProbeInfo :=
  {| FormatName := "wav"; Duration := 20; SampleRate := 12500; Channels := 2;
     BitRate := 400000; BitDepth := 16 |}.

(** The tools on such a file: volumedetect prints [peak] and [rms], astats
    100 clipped samples, ebur128 a true peak of -0.5 dBTP, the flat factor
    is 0.7 and the channel correlation 0.1; silencedetect reports the spans
    [2, 4] and [10, 10.5]; aubio is installed, prints the tempo estimates
    [bpm] and the pitch estimates [pitch], and names no key. *)
Definition sampleTools (peak rms : float) (bpm pitch : list float) : Tools :=
  {| statOK := true;
     ffprobeInfo := Ok stereo20s;
     volMax := Some peak;
     volMean := Some rms;
     astats := {[ "number_of_clipped_samples"%string := 100%float ]};
     eburI := Some (-14)%float;
     eburR := Some 6%float;
     eburTP := Some (-0.5)%float;
     ffmpegSpectral :=
       {| Centroid := None; Rolloff95 := None; Flatness := Some 0.7%float;
          Spread := None; Skewness := None; Kurtosis := None |};
     stereoRMS := [(-20)%float; (-26)%float];
     stereoCorr := Some 0.1%float;
     bandMax := fun _ => None;
     bandMean := fun _ => None;
     silenceLines :=
       [ (Some 2%float, None); (None, Some 4%float);
         (Some 10%float, None); (None, Some 10.5%float) ];
     haveAubio := true;
     tempoFailed := false;
     tempoBPM := bpm;
     onsetCount := 40;
     pitchHz := pitch;
     keyMatch := None;
     keyConf := None;
     now := "2025-01-01T00:00:00Z" |}.

Definition sampleSpans : list SilenceSpan :=
  [ {| Start := 2; End_ := 4 |}; {| Start := 10; End_ := 10.5 |} ]%float.

(** Which rule of the "hints" block a note comes from, by its first words. *)
Definition is_clip_note (n : string) : bool :=
  String.prefix "Clipping detected" n.
Definition is_true_peak_note (n : string) : bool :=
  String.prefix "True peak dangerously high" n.
Definition is_flatness_note (n : string) : bool :=
  String.prefix "High spectral flatness" n.
Definition is_correlation_note (n : string) : bool :=
  String.prefix "Low L/R correlation" n.

(** A timestamp that is not minus infinity. *)
Definition above_neg_infinity (x : float) : Prop :=
  (neg_infinity <? x)%float = true.

(** ** More of util.go and main.go *)

Definition clamp01 (x : float) : float :=
  if (x <? 0)%float then 0%float
  else if (1 <? x)%float then 1%float
  else x.

(** [strings.Split(s, sep)] for a separator of one byte: the pieces between
    the separators, one piece ([""]) for the empty string. *)
Fixpoint Split (s : string) (sep : ascii) : list string :=
  match s with
  | EmptyString => [EmptyString]
  | String c r =>
      if Ascii.eqb c sep then EmptyString :: Split r sep
      else
        match Split r sep with
        | h :: t => String c h :: t
        | [] => [String c EmptyString]
        end
  end.

(** [chunks[i]] where the caller has checked the length. *)
Definition chunk (chunks : list string) (i : nat) : string :=
  nth i chunks EmptyString.

Section ParseBands.

(** [strings.TrimSpace], and [strconv.ParseFloat(s, 64)] with its error
    dropped, as the source calls them. *)
Variable TrimSpace : string -> string.
Variable ParseFloat : string -> float.

Definition parseBands (s : string) : list Bandspec :=
  fold_left
    (fun out part =>
       let part := TrimSpace part in
       if String.eqb part "" then out
       else
         let chunks := Split part "-" in
         if negb (length chunks =? 2)%nat then out
         else
           let lo := ParseFloat (TrimSpace (chunk chunks 0)) in
           let hi := ParseFloat (TrimSpace (chunk chunks 1)) in
           if (0 <? lo)%float && (lo <? hi)%float then
             out ++ [{| Lo := lo; Hi := hi |}]
           else out)
    (Split s ",") [].

End ParseBands.

(** ** renderDiff (report.go): the plain-text and the markdown layout *)

Fixpoint spaces (k : nat) : string :=
  match k with
  | O => EmptyString
  | S k' => String " " (spaces k')
  end.

(** [%-<w>s] and [%<w>s] on a string of one-byte characters. *)
Definition pad_right (w : nat) (s : string) : string :=
  (s +:+ spaces (w - String.length s))%string.
Definition pad_left (w : nat) (s : string) : string :=
  (spaces (w - String.length s) +:+ s)%string.

(** [%+.<p>f]: as [%.<p>f], a plus sign before what has no minus sign. *)
Definition fmt_f_plus (p : nat) (x : float) : string :=
  let s := fmt_f p x in
  match s with
  | String "-" _ => s
  | String "+" _ => s
  | _ => ("+" +:+ s)%string
  end.

(** The keys that the plain-text layout walks through, in its order. *)
Definition deltaKeys : list string :=
  [ "peak_db"; "rms_db"; "crest_db"; "lufs_integrated"; "lufs_range";
    "stereo_side_mid_db"; "bpm_median"; "duration_s" ]%string.

(** The entries the plain-text layout prints: present, not NaN, not
    infinite. *)
Definition printedDeltas (d : Diff) : list (string * float) :=
  omap (fun k =>
          match Delta d !! k with
          | Some v =>
              if negb (IsNaN v) && negb (IsInf v 0) then Some (k, v) else None
          | None => None
          end)
       deltaKeys.

(** The default branch of [renderDiff]. *)
Definition renderDiffTXT (d : Diff) : string :=
  fold_left
    (fun b kv =>
       (b +:+ pad_right 20 (fst kv) +:+ " : "
          +:+ pad_left 8 (fmt_f_plus 3 (snd kv)) +:+ String "010" "")%string)
    (printedDeltas d)
    ("COMPARE: " +:+ Analysis.File (A d) +:+ " vs " +:+ Analysis.File (B d)
       +:+ String "010" (String "010" ""))%string.

(** One row of the markdown table: the metric, its value in A and in B, the
    delta read from the map (0 when the key is missing, as a Go map read
    gives), and the digits after the point. *)
Record mdRow := {
  metric : string;
  valueA : float;
  valueB : float;
  delta : float;
  digits : nat
}.

Definition deltaAt (d : Diff) (k : string) : float :=
  default 0%float (Delta d !! k).

(** The rows of the "md" branch of [renderDiff], in its order. *)
Definition mdRows (d : Diff) : list mdRow :=
  let a := A d in
  let b := B d in
  let la := Analysis.Level a in
  let lb := Analysis.Level b in
  [ {| metric := "Peak dBFS"; valueA := LevelStats.PeakDB la;
       valueB := LevelStats.PeakDB lb; delta := deltaAt d "peak_db"; digits := 2 |};
    {| metric := "RMS dBFS"; valueA := LevelStats.RMSDB la;
       valueB := LevelStats.RMSDB lb; delta := deltaAt d "rms_db"; digits := 2 |};
    {| metric := "Crest dB"; valueA := LevelStats.CrestDB la;
       valueB := LevelStats.CrestDB lb; delta := deltaAt d "crest_db"; digits := 2 |} ]
  ++ match Analysis.Loudness a, Analysis.Loudness b with
     | Some ua, Some ub =>
         [ {| metric := "LUFS (integr.)"; valueA := Integrated ua;
              valueB := Integrated ub; delta := deltaAt d "lufs_integrated";
              digits := 2 |};
           {| metric := "LUFS Range"; valueA := Range ua; valueB := Range ub;
              delta := deltaAt d "lufs_range"; digits := 2 |} ]
     | _, _ => []
     end
  ++ [ {| metric := "Side/Mid dB";
          valueA := SideMidRatioDB (Analysis.Stereo a);
          valueB := SideMidRatioDB (Analysis.Stereo b);
          delta := deltaAt d "stereo_side_mid_db"; digits := 2 |} ]
  ++ match Analysis.Tempo a, Analysis.Tempo b with
     | Some ta, Some tb =>
         match BPMMedian ta, BPMMedian tb with
         | Some ma, Some mb =>
             [ {| metric := "BPM (median)"; valueA := ma; valueB := mb;
                  delta := deltaAt d "bpm_median"; digits := 2 |} ]
         | _, _ => []
         end
     | _, _ => []
     end
  ++ [ {| metric := "Duration (s)"; valueA := Duration (Analysis.Probe a);
          valueB := Duration (Analysis.Probe b);
          delta := deltaAt d "duration_s"; digits := 3 |} ].

(** The closure [row] of the "md" branch. *)
Definition row (r : mdRow) : string :=
  ("| " +:+ metric r +:+ " | " +:+ fmt_f (digits r) (valueA r)
     +:+ " | " +:+ fmt_f (digits r) (valueB r)
     +:+ " | " +:+ fmt_f (digits r) (delta r) +:+ " |" +:+ String "010" "")%string.

(** The "md" branch of [renderDiff]; [Base] is [filepath.Base]. *)
Definition renderDiffMD (Base : string -> string) (d : Diff) : string :=
  let fa := Base (Analysis.File (A d)) in
  let fb := Base (Analysis.File (B d)) in
  fold_left (fun b r => (b +:+ row r)%string) (mdRows d)
    ("# Compare: " +:+ fa +:+ " ↔ " +:+ fb +:+ String "010" (String "010" "")
       +:+ "| Metric | " +:+ fa +:+ " | " +:+ fb +:+ " | Δ (B-A) |"
       +:+ String "010" "" +:+ "|---|---:|---:|---:|" +:+ String "010" "")%string.

(** ** What silencedetect prints for a list of spans *)

(** A "silence_start" line and a "silence_end" line for every span. *)
Definition silenceOutput (spans : list SilenceSpan) : list silenceLine :=
  flat_map (fun sp => [(Some (Start sp), None); (None, Some (End_ sp))]) spans.

(** The spans that are cuts for a minimum silence duration. *)
Definition isCut (minSilDur : float) (s : SilenceSpan) : bool :=
  (minSilDur <=? End_ s - Start s)%float.


(** ** Notions used in the statements about the rest of the code *)

(** The order of [float64] and its domain. *)
Definition fle (x y : float) : Prop := (x <=? y)%float = true.
Definition notNaN (x : float) : Prop := IsNaN x = false.

(** A segment from its two ends. *)
Definition mkSegment (p : float * float) : segment :=
  {| start := fst p; end_ := snd p |}.


(** The tools when nothing but ffprobe gives anything usable: no level, no
    statistics, no loudness, no silence, and aubio is not installed (what it
    would print is of no account then). *)
Definition bareTools (probe : outcome ProbeInfo) (vmax vmean : option float)
  : Tools :=
  {| statOK := true; ffprobeInfo := probe;
     volMax := vmax; volMean := vmean; astats := ∅; eburI := None;
     eburR := None; eburTP := None;
     ffmpegSpectral :=
       {| Centroid := None; Rolloff95 := None; Flatness := None;
          Spread := None; Skewness := None; Kurtosis := None |};
     stereoRMS := []; stereoCorr := None; bandMax := fun _ => None;
     bandMean := fun _ => None; silenceLines := []; haveAubio := false;
     tempoFailed := false; tempoBPM := [120%float]; onsetCount := 0;
     pitchHz := [440%float]; keyMatch := None; keyConf := None; now := "" |}.

(** * Properties *)

(** ** Facts about binary64 *)

Lemma shr_1_nonneg mrs : 0 <= shr_m mrs -> 0 <= shr_m (shr_1 mrs).
Proof.
  destruct mrs as [m r s]; simpl.
  destruct m as [|p|p]; [| destruct p | ]; simpl; lia.
Qed.

Lemma iter_shr_1_nonneg p : forall mrs,
  0 <= shr_m mrs -> 0 <= shr_m (SpecFloat.iter_pos shr_1 p mrs).
Proof.
  induction p as [p IH|p IH|]; intros mrs H; simpl.
  - apply IH, IH, shr_1_nonneg, H.
  - apply IH, IH, H.
  - apply shr_1_nonneg, H.
Qed.

Lemma shr_nonneg mrs e n : 0 <= shr_m mrs -> 0 <= shr_m (fst (shr mrs e n)).
Proof.
  intros H. unfold shr. destruct n; simpl; auto using iter_shr_1_nonneg.
Qed.

Lemma shr_fexp_nonneg m e l :
  0 <= m -> 0 <= shr_m (fst (shr_fexp prec emax m e l)).
Proof.
  intros H. unfold shr_fexp. apply shr_nonneg.
  destruct l as [|[]]; simpl; exact H.
Qed.

Lemma round_nearest_even_nonneg m l : 0 <= m -> 0 <= round_nearest_even m l.
Proof.
  intros H. unfold round_nearest_even.
  destruct l as [|[]]; try lia. destruct (IntDef.Z.even m); lia.
Qed.

Lemma binary_round_aux_not_nan sx mx ex lx :
  0 <= mx -> binary_round_aux prec emax sx mx ex lx <> S754_nan.
Proof.
  intros H. unfold binary_round_aux.
  pose proof (shr_fexp_nonneg mx ex lx H) as H1.
  destruct (shr_fexp prec emax mx ex lx) as [mrs' e']. simpl in H1.
  pose proof (shr_fexp_nonneg
                (round_nearest_even (shr_m mrs') (loc_of_shr_record mrs'))
                e' loc_Exact (round_nearest_even_nonneg _ _ H1)) as H2.
  destruct (shr_fexp prec emax _ e' loc_Exact) as [mrs'' e'']. simpl in H2.
  destruct (shr_m mrs'') as [|p|p]; try discriminate; [|lia].
  destruct (e'' <=? emax - prec); discriminate.
Qed.

Lemma binary_normalize_not_nan m e sz :
  binary_normalize prec emax m e sz <> S754_nan.
Proof.
  unfold binary_normalize, binary_round.
  destruct m as [|p|p]; try discriminate;
    destruct (shl_align p e _) as [mz ez];
    apply binary_round_aux_not_nan; lia.
Qed.

Lemma SFcompare_refl x : x <> S754_nan -> SFcompare x x = Some Eq.
Proof.
  destruct x as [s|s| |s m e]; simpl; intros H; try congruence.
  - destruct s; reflexivity.
  - rewrite Z.compare_refl.
    change (PosDef.Pos.compare_cont Eq m m) with (Pos.compare m m).
    rewrite Pos.compare_refl. destruct s; reflexivity.
Qed.

Lemma SFcompare_antisym x y :
  SFcompare y x = option_map CompOpp (SFcompare x y).
Proof.
  destruct x as [sx|sx| |sx mx ex], y as [sy|sy| |sy my ey]; simpl;
    try reflexivity; try (destruct sx; reflexivity);
    try (destruct sy; reflexivity);
    try (destruct sx, sy; reflexivity).
  f_equal. rewrite (Z.compare_antisym ey ex).
  change (PosDef.Pos.compare_cont Eq my mx) with (Pos.compare my mx).
  change (PosDef.Pos.compare_cont Eq mx my) with (Pos.compare mx my).
  rewrite (Pos.compare_antisym my mx).
  destruct sx, sy, (ey ?= ex), (my ?= mx)%positive; reflexivity.
Qed.

(** The comparisons of [float], read on the specification. *)
Ltac to_SF :=
  unfold IsNaN in *;
  rewrite ?FloatAxioms.eqb_spec, ?FloatAxioms.ltb_spec, ?FloatAxioms.leb_spec in *;
  unfold SFeqb, SFltb, SFleb in *.

Lemma IsNaN_spec x : IsNaN x = true <-> Prim2SF x = S754_nan.
Proof.
  to_SF. split.
  - destruct (Prim2SF x) as [s|s| |s m e] eqn:E; auto; intros H;
      rewrite SFcompare_refl in H by discriminate; discriminate.
  - intros ->. reflexivity.
Qed.

Lemma notNaN_spec x : IsNaN x = false <-> Prim2SF x <> S754_nan.
Proof.
  rewrite <- IsNaN_spec. destruct (IsNaN x); split; congruence.
Qed.

Lemma leb_refl x : IsNaN x = false -> (x <=? x)%float = true.
Proof.
  rewrite notNaN_spec. intros H. to_SF. now rewrite SFcompare_refl.
Qed.

Lemma eqb_leb x y : (x =? y)%float = true -> (x <=? y)%float = true.
Proof. to_SF. destruct (SFcompare _ _) as [[]|]; congruence. Qed.

Lemma ltb_leb x y : (x <? y)%float = true -> (x <=? y)%float = true.
Proof. to_SF. destruct (SFcompare _ _) as [[]|]; congruence. Qed.

Lemma not_ltb_leb x y :
  IsNaN x = false -> IsNaN y = false ->
  (y <? x)%float = false -> (x <=? y)%float = true.
Proof.
  rewrite !notNaN_spec. intros Hx Hy. to_SF.
  rewrite (SFcompare_antisym (Prim2SF x) (Prim2SF y)).
  destruct (Prim2SF x) as [sx|sx| |sx mx ex], (Prim2SF y) as [sy|sy| |sy my ey];
    try congruence; simpl;
    repeat match goal with |- context [if ?b then _ else _] => destruct b end;
    simpl; try congruence;
    destruct (ex ?= ey); simpl; try congruence;
    destruct (PosDef.Pos.compare_cont Eq mx my); simpl; congruence.
Qed.

Lemma leb_notNaN_l x y : (x <=? y)%float = true -> IsNaN x = false.
Proof.
  intros H. apply notNaN_spec. intros E. to_SF. rewrite E in H. discriminate.
Qed.

Lemma leb_notNaN_r x y : (x <=? y)%float = true -> IsNaN y = false.
Proof.
  intros H. apply notNaN_spec. intros E. to_SF. rewrite E in H.
  destruct (Prim2SF x); discriminate.
Qed.

Lemma ltb_notNaN_l x y : (x <? y)%float = true -> IsNaN x = false.
Proof. intros H. eapply leb_notNaN_l, ltb_leb, H. Qed.

Lemma ltb_notNaN_r x y : (x <? y)%float = true -> IsNaN y = false.
Proof. intros H. eapply leb_notNaN_r, ltb_leb, H. Qed.

Lemma leb_infinity x : IsNaN x = false -> (x <=? infinity)%float = true.
Proof.
  rewrite notNaN_spec. intros H. to_SF.
  change (Prim2SF infinity) with (S754_infinity false).
  destruct (Prim2SF x) as [s|s| |s m e]; try congruence; destruct s; reflexivity.
Qed.

Lemma neg_infinity_leb x : IsNaN x = false -> (neg_infinity <=? x)%float = true.
Proof.
  rewrite notNaN_spec. intros H. to_SF.
  change (Prim2SF neg_infinity) with (S754_infinity true).
  destruct (Prim2SF x) as [s|s| |s m e]; try congruence; destruct s; reflexivity.
Qed.

Lemma Prim2SF_infinity x s :
  Prim2SF x = S754_infinity s -> x = if s then neg_infinity else infinity.
Proof.
  intros H. apply Prim2SF_inj. rewrite H. destruct s; reflexivity.
Qed.

Lemma add_NaN_inv s t :
  IsNaN s = false -> IsNaN t = false -> IsNaN (s + t)%float = true ->
  (s = infinity /\ t = neg_infinity) \/ (s = neg_infinity /\ t = infinity).
Proof.
  rewrite !notNaN_spec, IsNaN_spec, add_spec. unfold SF64add, SFadd.
  intros Hs Ht.
  destruct (Prim2SF s) as [ss|ss| |ss ms es] eqn:Es; try congruence;
    destruct (Prim2SF t) as [st|st| |st mt et] eqn:Et; try congruence;
    try (destruct ss, st; discriminate).
  - destruct ss, st; try discriminate; intros _;
      apply Prim2SF_infinity in Es, Et; auto.
  - intros H. now apply binary_normalize_not_nan in H.
Qed.

Lemma sub_NaN_inv e t :
  IsNaN e = false -> IsNaN t = false -> IsNaN (e - t)%float = true ->
  (e = infinity /\ t = infinity) \/ (e = neg_infinity /\ t = neg_infinity).
Proof.
  rewrite !notNaN_spec, IsNaN_spec, sub_spec. unfold SF64sub, SFsub.
  intros He Ht.
  destruct (Prim2SF e) as [se|se| |se me ee] eqn:Ee; try congruence;
    destruct (Prim2SF t) as [st|st| |st mt et] eqn:Et; try congruence;
    try (destruct se, st; discriminate).
  - destruct se, st; try discriminate; intros _;
      apply Prim2SF_infinity in Ee, Et; auto.
  - intros H. now apply binary_normalize_not_nan in H.
Qed.

Lemma add_infinity s :
  (neg_infinity <? s)%float = true -> (s + infinity)%float = infinity.
Proof.
  intros H. apply Prim2SF_inj. rewrite add_spec. to_SF.
  change (Prim2SF infinity) with (S754_infinity false).
  change (Prim2SF neg_infinity) with (S754_infinity true) in H.
  unfold SF64add, SFadd.
  destruct (Prim2SF s) as [ss|ss| |ss ms es]; try reflexivity; try discriminate.
  destruct ss; [discriminate | reflexivity].
Qed.

(** ** [math.Min] and [math.Max] *)

Lemma Min_notNaN x y :
  IsNaN x = false -> IsNaN y = false -> IsNaN (Min x y) = false.
Proof.
  intros Hx Hy. unfold Min.
  destruct (IsInf x (-1) || IsInf y (-1)); [reflexivity|].
  rewrite Hx, Hy. simpl.
  destruct ((x =? 0)%float && (x =? y)%float);
    [destruct (Signbit x) | destruct (x <? y)%float]; assumption.
Qed.

Lemma Max_ge_left x y :
  IsNaN x = false -> (IsNaN y = true -> x = infinity) ->
  (x <=? Max x y)%float = true.
Proof.
  intros Hx Hy. unfold Max.
  destruct (IsInf x 1 || IsInf y 1) eqn:E1.
  - now apply leb_infinity.
  - destruct (IsNaN y) eqn:Ny.
    + rewrite (Hy eq_refl) in E1. discriminate.
    + rewrite Hx. simpl.
      destruct ((x =? 0)%float && (x =? y)%float) eqn:E2.
      * apply andb_true_iff in E2 as [_ E2].
        destruct (Signbit x); [now apply eqb_leb | now apply leb_refl].
      * destruct (y <? x)%float eqn:E3;
          [now apply leb_refl | now apply not_ltb_leb].
Qed.

(** ** The clamped trim *)

Lemma trimSegment_ordered sg trim :
  (neg_infinity <? start sg)%float = true ->
  (start sg <=? end_ sg)%float = true ->
  (0 <? trim)%float = true ->
  (start (trimSegment trim sg) <=? end_ (trimSegment trim sg))%float = true.
Proof.
  intros Hs Hse Ht. unfold trimSegment. rewrite Ht. simpl.
  pose proof (leb_notNaN_l _ _ Hse) as Ns.
  pose proof (leb_notNaN_r _ _ Hse) as Ne.
  pose proof (ltb_notNaN_r _ _ Ht) as Nt.
  assert (Na : IsNaN (start sg + trim)%float = false).
  { destruct (IsNaN (start sg + trim)%float) eqn:E; [|reflexivity].
    destruct (add_NaN_inv _ _ Ns Nt E) as [[_ H]|[H _]].
    - rewrite H in Ht. discriminate.
    - rewrite H in Hs. discriminate. }
  apply Max_ge_left.
  - now apply Min_notNaN.
  - intros Nb.
    destruct (sub_NaN_inv _ _ Ne Nt Nb) as [[He H]|[_ H]].
    + rewrite H, He, (add_infinity _ Hs). reflexivity.
    + rewrite H in Ht. discriminate.
Qed.

(** ** Segments between silences *)

Lemma cut_end_above m e s :
  (0 <? m)%float = true -> (m <=? e - s)%float = true -> above_neg_infinity e.
Proof.
  unfold above_neg_infinity. to_SF. rewrite sub_spec.
  change (Prim2SF neg_infinity) with (S754_infinity true).
  change (Prim2SF 0) with (S754_zero false).
  unfold SF64sub, SFsub.
  destruct (Prim2SF e) as [se|se| |se me ee]; try reflexivity.
  - destruct se; [|reflexivity].
    destruct (Prim2SF s) as [ss|ss| |ss ms es], (Prim2SF m) as [sm|sm| |sm mm em];
      simpl; try discriminate; destruct sm; try discriminate;
      destruct ss; discriminate.
  - destruct (Prim2SF m); discriminate.
Qed.

Lemma cutSegments_starts m spans : (0 <? m)%float = true ->
  forall st segs,
    above_neg_infinity st ->
    Forall (fun sg => above_neg_infinity (start sg)) segs ->
    Forall (fun sg => above_neg_infinity (start sg))
           (fst (cutSegments spans m st segs))
    /\ above_neg_infinity (snd (cutSegments spans m st segs)).
Proof.
  intros Hm. induction spans as [|sp rest IH]; intros st segs Hst Hsegs; simpl.
  - auto.
  - destruct (m <=? End_ sp - Start sp)%float eqn:E.
    + apply IH.
      * eapply cut_end_above; eauto.
      * apply Forall_app; split; [assumption|]. constructor; [exact Hst|constructor].
    + now apply IH.
Qed.

Lemma buildSegments_starts spans dur m sg :
  (0 <? m)%float = true -> In sg (buildSegments spans dur m) ->
  above_neg_infinity (start sg).
Proof.
  intros Hm. unfold buildSegments.
  pose proof (cutSegments_starts m spans Hm 0%float [] eq_refl (List.Forall_nil _))
    as [H1 H2].
  destruct (cutSegments spans m 0 []) as [segs st]. simpl in H1, H2.
  rewrite List.Forall_forall in H1.
  destruct (st <? dur)%float.
  - intros H. apply in_app_or in H as [H|[<-|[]]]; [|exact H2].
    now apply H1.
  - intros H. now apply H1.
Qed.

(** C5. [splitBySilence] runs with a positive minimum silence (the guard of
    [main]).  For every segment it builds whose start is not after its end,
    and every positive trim, the trimmed start is [Min(end, start + trim)],
    the trimmed end is [Max(new start, end - trim)], and the trimmed start is
    not after the trimmed end: a trimmed segment may be empty, never
    inverted. *)
Theorem trim_never_inverts spans dur minSilDur trim sg :
  (0 <? minSilDur)%float = true ->
  In sg (buildSegments spans dur minSilDur) ->
  (start sg <=? end_ sg)%float = true ->
  (0 <? trim)%float = true ->
  start (trimSegment trim sg) = Min (end_ sg) (start sg + trim)%float
  /\ end_ (trimSegment trim sg)
     = Max (start (trimSegment trim sg)) (end_ sg - trim)%float
  /\ (start (trimSegment trim sg) <=? end_ (trimSegment trim sg))%float = true.
Proof.
  intros Hm Hin Hse Ht. split; [|split].
  - unfold trimSegment. now rewrite Ht.
  - unfold trimSegment. now rewrite Ht.
  - apply trimSegment_ordered; try assumption.
    exact (buildSegments_starts spans dur minSilDur sg Hm Hin).
Qed.

Lemma trim_never_inverts_witness :
  trimSegment 9 {| start := 4; end_ := 20 |} = {| start := 13; end_ := 13 |}
  /\ (start (trimSegment 9 {| start := 4; end_ := 20 |})
      <=? end_ (trimSegment 9 {| start := 4; end_ := 20 |}))%float = true.
Proof.
  split; [reflexivity|].
  exact (proj2 (proj2 (trim_never_inverts
                         sampleSpans 20 1 9 {| start := 4; end_ := 20 |}
                         eq_refl (or_intror (or_introl eq_refl))
                         eq_refl eq_refl))).
Defined.

(** ** What [analyzeFile] returns *)

(** The level statistics of an analysis: the blocks "levels", "clips",
    "Headroom" and "LUFS + TruePeak", in this order. *)
Lemma analyzeFile_Ok Log2 cfg inp t a :
  analyzeFile Log2 cfg inp t = Ok a ->
  exists probe,
    ffprobeInfo t = Ok probe
    /\ Analysis.Probe a = probe
    /\ Analysis.Level a
       = snd (loudness cfg t
                (headroom (clipStats probe (snd (levels t)) (fst (levels t)))))
    /\ Analysis.Loudness a
       = fst (loudness cfg t
                (headroom (clipStats probe (snd (levels t)) (fst (levels t)))))
    /\ Analysis.Spectral a = ffmpegSpectral t
    /\ Analysis.Stereo a = ffmpegStereoStuff (stereoRMS t) (stereoCorr t)
    /\ Analysis.Tempo a = tempoStats cfg t probe
    /\ Analysis.Key a = keyInfo t
    /\ pitchStats Log2 t = Ok (Analysis.Pitch a)
    /\ Analysis.Notes a
       = diagnosticNotes (Analysis.Level a) (Analysis.Spectral a)
                         (Analysis.Stereo a).
Proof.
  unfold analyzeFile. destruct (statOK t); [|discriminate]. cbn [negb].
  destruct (ffprobeInfo t) as [probe|e|m]; try discriminate.
  intros H. exists probe. revert H.
  unfold mbind, outcome_bind.
  destruct (levels t) as [lv0 astatsMap]. cbn [fst snd].
  destruct (loudness cfg t (headroom (clipStats probe astatsMap lv0)))
    as [lufs lv].
  destruct (silenceStats probe _) as [silRatio silTotal].
  destruct (pitchStats Log2 t) as [ps|e|m]; try discriminate.
  intros [= <-]. cbn. repeat split; reflexivity.
Qed.

Lemma loudness_level cfg t lv :
  let lv' := snd (loudness cfg t lv) in
  LevelStats.PeakDB lv' = LevelStats.PeakDB lv
  /\ LevelStats.RMSDB lv' = LevelStats.RMSDB lv
  /\ LevelStats.CrestDB lv' = LevelStats.CrestDB lv
  /\ LevelStats.HeadroomDB lv' = LevelStats.HeadroomDB lv
  /\ LevelStats.ClipSamples lv' = LevelStats.ClipSamples lv
  /\ LevelStats.ClipPercent lv' = LevelStats.ClipPercent lv.
Proof.
  unfold loudness. destruct (UseEBUR128 cfg); simpl; auto 10.
  destruct (ffmpegEBUR128 _ _ _) as [v [e|]]; simpl; auto 10.
  destruct (TruePeak v); simpl; auto 10.
Qed.

Lemma clipStats_level probe m lv :
  let lv' := clipStats probe m lv in
  LevelStats.PeakDB lv' = LevelStats.PeakDB lv
  /\ LevelStats.RMSDB lv' = LevelStats.RMSDB lv
  /\ LevelStats.CrestDB lv' = LevelStats.CrestDB lv.
Proof.
  unfold clipStats. destruct (m !! _); simpl; auto.
  destruct (_ && _); simpl; auto.
Qed.

Lemma levels_level t :
  let lv := fst (levels t) in
  (LevelStats.PeakDB lv, LevelStats.RMSDB lv)
  = fst (ffmpegVolumedetect (volMax t) (volMean t))
  /\ LevelStats.CrestDB lv = (LevelStats.PeakDB lv - LevelStats.RMSDB lv)%float
  /\ LevelStats.ClipSamples lv = None
  /\ LevelStats.ClipPercent lv = None
  /\ LevelStats.TruePeakDBTP lv = None.
Proof.
  unfold levels.
  destruct (ffmpegVolumedetect _ _) as [[peak rms] e].
  destruct (ffmpegAstatsOverall _) as [astatsMap e']. simpl. auto.
Qed.

(** The crest factor of an analysis is computed once, from the peak and the
    RMS level it is stored with. *)
Lemma analyzeFile_crest Log2 cfg inp t a :
  analyzeFile Log2 cfg inp t = Ok a ->
  LevelStats.CrestDB (Analysis.Level a)
  = (LevelStats.PeakDB (Analysis.Level a)
     - LevelStats.RMSDB (Analysis.Level a))%float.
Proof.
  intros H. destruct (analyzeFile_Ok _ _ _ _ _ H) as (probe & _ & _ & HL & _).
  rewrite HL.
  destruct (loudness_level cfg t
              (headroom (clipStats probe (snd (levels t)) (fst (levels t)))))
    as (-> & -> & -> & _).
  unfold headroom. simpl.
  destruct (clipStats_level probe (snd (levels t)) (fst (levels t)))
    as (-> & -> & ->).
  apply levels_level.
Qed.

(** C1. For every analysis that [analyzeFile] returns, the peak and the RMS
    level are the two numbers of the level probe (volumedetect; 0 and 0 when
    it fails), the crest factor is the float64 difference peak - RMS and the
    headroom is the float64 difference 0 - peak, exactly. *)
Theorem crest_and_headroom_exact Log2 cfg inp t a :
  analyzeFile Log2 cfg inp t = Ok a ->
  let lv := Analysis.Level a in
  (LevelStats.PeakDB lv, LevelStats.RMSDB lv)
  = fst (ffmpegVolumedetect (volMax t) (volMean t))
  /\ LevelStats.CrestDB lv = (LevelStats.PeakDB lv - LevelStats.RMSDB lv)%float
  /\ LevelStats.HeadroomDB lv = (0 - LevelStats.PeakDB lv)%float.
Proof.
  intros H. destruct (analyzeFile_Ok _ _ _ _ _ H) as (probe & _ & _ & HL & _).
  cbv zeta. rewrite HL.
  destruct (loudness_level cfg t
              (headroom (clipStats probe (snd (levels t)) (fst (levels t)))))
    as (-> & -> & -> & -> & _).
  unfold headroom. simpl.
  destruct (clipStats_level probe (snd (levels t)) (fst (levels t)))
    as (-> & -> & ->).
  destruct (levels_level t) as (H1 & H2 & _). auto.
Qed.

Lemma crest_and_headroom_exact_witness :
  exists a,
    analyzeFile Log2_pow2 aubioConfig "take.wav"
                (sampleTools (-0.1) (-0.4) [120; 60; 180] [440])%float = Ok a
    /\ (LevelStats.PeakDB (Analysis.Level a), LevelStats.RMSDB (Analysis.Level a))
       = ((-0.1)%float, (-0.4)%float)
    /\ LevelStats.CrestDB (Analysis.Level a)
       = (LevelStats.PeakDB (Analysis.Level a)
          - LevelStats.RMSDB (Analysis.Level a))%float
    /\ LevelStats.HeadroomDB (Analysis.Level a)
       = (0 - LevelStats.PeakDB (Analysis.Level a))%float.
Proof.
  eexists. split; [vm_compute; reflexivity|].
  apply (crest_and_headroom_exact Log2_pow2 aubioConfig "take.wav"
           (sampleTools (-0.1) (-0.4) [120; 60; 180] [440])%float).
  vm_compute. reflexivity.
Defined.

Lemma clipStats_clip probe m lv :
  LevelStats.ClipSamples lv = None -> LevelStats.ClipPercent lv = None ->
  let lv' := clipStats probe m lv in
  let geometry :=
    (0 <? Duration probe)%float && (0 <? SampleRate probe)
    && (0 <? Channels probe) in
  LevelStats.ClipSamples lv'
  = int64_of_float64 <$> (m !! "number_of_clipped_samples"%string)
  /\ LevelStats.ClipPercent lv'
     = if geometry then
         (fun c =>
            (100.0 * float64_of_int c
             / (Duration probe
                * float64_of_int (int_mul (SampleRate probe) (Channels probe))))%float)
           <$> LevelStats.ClipSamples lv'
       else None.
Proof.
  intros H1 H2. unfold clipStats.
  destruct (m !! _) as [v|]; cbn.
  - destruct (_ && _); cbn; auto.
  - rewrite H1, H2. destruct (_ && _); auto.
Qed.

Lemma int_mul_exact a b :
  a * b <= maxInt64 -> 0 < a -> 0 < b -> int_mul a b = a * b.
Proof.
  intros Hle Ha Hb. unfold int_mul, wrap64, maxInt64 in *.
  rewrite Z.mod_small by nia. lia.
Qed.

(** C2. For every analysis that [analyzeFile] returns, the clip percentage is
    present exactly when the clip count is present and the probe's duration,
    sample rate and channel count are all positive; its value is then
    100 * count / (duration * (sampleRate * channels)) in float64, the count
    and the integer product sampleRate * channels converted to float64. *)
Theorem clip_percent_presence Log2 cfg inp t a :
  analyzeFile Log2 cfg inp t = Ok a ->
  let lv := Analysis.Level a in
  let p := Analysis.Probe a in
  (is_Some (LevelStats.ClipPercent lv) <->
   is_Some (LevelStats.ClipSamples lv)
   /\ (0 <? Duration p)%float = true /\ 0 < SampleRate p /\ 0 < Channels p)
  /\ (forall pct, LevelStats.ClipPercent lv = Some pct ->
      exists c, LevelStats.ClipSamples lv = Some c
        /\ pct = (100.0 * float64_of_int c
                  / (Duration p
                     * float64_of_int (int_mul (SampleRate p) (Channels p))))%float)
  /\ (SampleRate p * Channels p <= maxInt64 -> 0 < SampleRate p -> 0 < Channels p ->
      int_mul (SampleRate p) (Channels p) = SampleRate p * Channels p).
Proof.
  intros H. destruct (analyzeFile_Ok _ _ _ _ _ H) as (probe & _ & HP & HL & _).
  cbv zeta. rewrite HL, HP.
  destruct (loudness_level cfg t
              (headroom (clipStats probe (snd (levels t)) (fst (levels t)))))
    as (_ & _ & _ & _ & -> & ->).
  unfold headroom. cbn [LevelStats.set_HeadroomDB LevelStats.ClipSamples
                        LevelStats.ClipPercent].
  destruct (levels_level t) as (_ & _ & H1 & H2 & _).
  destruct (clipStats_clip probe (snd (levels t)) (fst (levels t)) H1 H2)
    as [_ Hp].
  cbv zeta in Hp. rewrite Hp. clear Hp H1 H2.
  generalize (LevelStats.ClipSamples
                (clipStats probe (snd (levels t)) (fst (levels t)))).
  intros cs.
  split; [|split]; [| |apply int_mul_exact].
  - destruct cs as [c|],
             (0 <? Duration probe)%float,
             (Z.ltb_spec 0 (SampleRate probe)),
             (Z.ltb_spec 0 (Channels probe)); cbn;
      (split; [intros [x Hx] | intros (Hc & Hd & Hs & Hch)]);
      try discriminate; try lia; eauto;
      try (destruct Hc; discriminate).
  - intros pct.
    destruct cs as [c|], (_ && _); cbn;
      intros [=]; subst; eauto.
Qed.

Lemma clip_percent_presence_witness :
  exists a,
    analyzeFile Log2_pow2 aubioConfig "take.wav"
                (sampleTools (-0.1) (-0.4) [120; 60; 180] [440])%float = Ok a
    /\ LevelStats.ClipSamples (Analysis.Level a) = Some 100
    /\ LevelStats.ClipPercent (Analysis.Level a) = Some 0.02%float
    /\ (forall pct, LevelStats.ClipPercent (Analysis.Level a) = Some pct ->
        exists c, LevelStats.ClipSamples (Analysis.Level a) = Some c
          /\ pct = (100.0 * float64_of_int c
                    / (Duration (Analysis.Probe a)
                       * float64_of_int
                           (int_mul (SampleRate (Analysis.Probe a))
                                    (Channels (Analysis.Probe a)))))%float).
Proof.
  eexists. split; [vm_compute; reflexivity|].
  split; [reflexivity|]. split; [reflexivity|].
  apply (clip_percent_presence Log2_pow2 aubioConfig "take.wav"
           (sampleTools (-0.1) (-0.4) [120; 60; 180] [440])%float).
  vm_compute. reflexivity.
Defined.

(** ** The diff *)

(** C6. The delta map of [compare a b] holds [bpm_median] only when both
    analyses have tempo statistics with a median, and [lufs_integrated] and
    [lufs_range] only when both have a loudness record; the value is then
    B - A, and otherwise the key is not in the map at all (a lookup gives
    [None], not a zero). *)
Theorem compare_omits_absent (a b : Analysis) :
  let d := Delta (compare a b) in
  d !! "bpm_median"%string
  = (ta ← Analysis.Tempo a; tb ← Analysis.Tempo b;
     ma ← BPMMedian ta; mb ← BPMMedian tb; Some (mb - ma)%float)
  /\ d !! "lufs_integrated"%string
     = (ua ← Analysis.Loudness a; ub ← Analysis.Loudness b;
        Some (Integrated ub - Integrated ua)%float)
  /\ d !! "lufs_range"%string
     = (ua ← Analysis.Loudness a; ub ← Analysis.Loudness b;
        Some (Range ub - Range ua)%float).
Proof.
  unfold compare. cbn.
  destruct (Analysis.Loudness a) as [ua|], (Analysis.Loudness b) as [ub|];
    (destruct (Analysis.Tempo a) as [ta|]; cbn;
     [destruct (BPMMedian ta) as [ma|]; cbn|]);
    (destruct (Analysis.Tempo b) as [tb|]; cbn;
     [destruct (BPMMedian tb) as [mb|]; cbn|]);
    repeat split; now simplify_map_eq.
Qed.

(** The five metrics that every diff holds, B - A each. *)
Lemma compare_level_deltas (a b : Analysis) :
  let d := Delta (compare a b) in
  let la := Analysis.Level a in
  let lb := Analysis.Level b in
  d !! "peak_db"%string = Some (LevelStats.PeakDB lb - LevelStats.PeakDB la)%float
  /\ d !! "rms_db"%string = Some (LevelStats.RMSDB lb - LevelStats.RMSDB la)%float
  /\ d !! "crest_db"%string
     = Some (LevelStats.CrestDB lb - LevelStats.CrestDB la)%float
  /\ d !! "stereo_side_mid_db"%string
     = Some (SideMidRatioDB (Analysis.Stereo b)
             - SideMidRatioDB (Analysis.Stereo a))%float
  /\ d !! "duration_s"%string
     = Some (Duration (Analysis.Probe b) - Duration (Analysis.Probe a))%float.
Proof.
  unfold compare. cbn.
  destruct (Analysis.Loudness a) as [ua|], (Analysis.Loudness b) as [ub|];
    (destruct (Analysis.Tempo a) as [ta|]; cbn;
     [destruct (BPMMedian ta) as [ma|]; cbn|]);
    (destruct (Analysis.Tempo b) as [tb|]; cbn;
     [destruct (BPMMedian tb) as [mb|]; cbn|]);
    repeat split; now simplify_map_eq.
Qed.

(** C10, amended. For two analyses that [analyzeFile] returns, the delta
    map of their diff holds [peak_db], [rms_db], [crest_db],
    [stereo_side_mid_db] and [duration_s], and [crest_db] is the float64
    difference of the two crest factors, (peak B - RMS B) - (peak A - RMS A),
    every subtraction rounded to float64. *)
Theorem diff_crest_delta Log2 cfgA inpA tA a cfgB inpB tB b :
  analyzeFile Log2 cfgA inpA tA = Ok a ->
  analyzeFile Log2 cfgB inpB tB = Ok b ->
  let d := Delta (compare a b) in
  let la := Analysis.Level a in
  let lb := Analysis.Level b in
  d !! "crest_db"%string
  = Some ((LevelStats.PeakDB lb - LevelStats.RMSDB lb)
          - (LevelStats.PeakDB la - LevelStats.RMSDB la))%float
  /\ d !! "peak_db"%string = Some (LevelStats.PeakDB lb - LevelStats.PeakDB la)%float
  /\ d !! "rms_db"%string = Some (LevelStats.RMSDB lb - LevelStats.RMSDB la)%float
  /\ is_Some (d !! "stereo_side_mid_db"%string)
  /\ is_Some (d !! "duration_s"%string).
Proof.
  intros Ha Hb.
  pose proof (analyzeFile_crest _ _ _ _ _ Ha) as Ca.
  pose proof (analyzeFile_crest _ _ _ _ _ Hb) as Cb.
  destruct (compare_level_deltas a b) as (Hp & Hr & Hc & Hs & Hd).
  cbv zeta in *. rewrite Hp, Hr, Hc, Hs, Hd, Ca, Cb. eauto 6.
Qed.

Lemma diff_crest_delta_witness :
  exists a b,
    analyzeFile Log2_pow2 defaultConfig "a.wav"
                (sampleTools (-0.1) (-0.4) [] []) = Ok a
    /\ analyzeFile Log2_pow2 defaultConfig "b.wav"
                   (sampleTools 0 (-0.2) [] []) = Ok b
    /\ Delta (compare a b) !! "crest_db"%string
       = Some ((0 - -0.2) - (-0.1 - -0.4))%float.
Proof.
  eexists. eexists.
  split; [vm_compute; reflexivity|]. split; [vm_compute; reflexivity|].
  refine (proj1 (diff_crest_delta Log2_pow2
                   defaultConfig "a.wav" (sampleTools (-0.1) (-0.4) [] []) _
                   defaultConfig "b.wav" (sampleTools 0 (-0.2) [] []) _ _ _));
    vm_compute; reflexivity.
Defined.

(** C10 as stated fails: with peak -0.1 and RMS -0.4 dB for A, peak 0 and
    RMS -0.2 dB for B, both crest factors are peak - RMS, and the crest delta
    is -0.10000000000000003 while peak delta - RMS delta is -0.1. *)
Lemma crest_delta_differs_from_peak_minus_rms :
  exists a b dc dp dr,
    analyzeFile Log2_pow2 defaultConfig "a.wav"
                (sampleTools (-0.1) (-0.4) [] []) = Ok a
    /\ analyzeFile Log2_pow2 defaultConfig "b.wav"
                   (sampleTools 0 (-0.2) [] []) = Ok b
    /\ LevelStats.CrestDB (Analysis.Level a)
       = (LevelStats.PeakDB (Analysis.Level a)
          - LevelStats.RMSDB (Analysis.Level a))%float
    /\ LevelStats.CrestDB (Analysis.Level b)
       = (LevelStats.PeakDB (Analysis.Level b)
          - LevelStats.RMSDB (Analysis.Level b))%float
    /\ Delta (compare a b) !! "crest_db"%string = Some dc
    /\ Delta (compare a b) !! "peak_db"%string = Some dp
    /\ Delta (compare a b) !! "rms_db"%string = Some dr
    /\ dc = (-0.10000000000000003)%float
    /\ (dp - dr)%float = (-0.1)%float
    /\ (dc =? dp - dr)%float = false.
Proof.
  do 5 eexists.
  split; [vm_compute; reflexivity|]. split; [vm_compute; reflexivity|].
  repeat split; vm_compute; reflexivity.
Qed.

(** ** Diagnostic notes *)

Lemma diagnosticNotes_four lv spec st :
  LevelStats.ClipSamples lv = Some 100 ->
  LevelStats.ClipPercent lv = Some 0.02%float ->
  LevelStats.TruePeakDBTP lv = Some (-0.5)%float ->
  Flatness spec = Some 0.7%float ->
  Correlation st = Some 0.1%float ->
  diagnosticNotes lv spec st
  = [ "Clipping detected: 100 samples (0.020%)";
      "True peak dangerously high (-0.50 dBTP). Consider -1.5 dBTP ceiling.";
      "High spectral flatness → noise-like content.";
      "Low L/R correlation → wide or phasey stereo." ]%string.
Proof.
  intros H1 H2 H3 H4 H5. unfold diagnosticNotes.
  rewrite H1, H2, H3, H4, H5. vm_compute. reflexivity.
Qed.

(** The notes of a rule all start with the words of that rule, so a rule
    that does not run leaves no note of its kind. *)
Lemma diagnosticNotes_skip lv spec st :
  let ns := diagnosticNotes lv spec st in
  (LevelStats.ClipSamples lv = None -> Forall (fun n => is_clip_note n = false) ns)
  /\ (LevelStats.TruePeakDBTP lv = None ->
      Forall (fun n => is_true_peak_note n = false) ns)
  /\ (Flatness spec = None -> Forall (fun n => is_flatness_note n = false) ns)
  /\ (Correlation st = None -> Forall (fun n => is_correlation_note n = false) ns).
Proof.
  unfold diagnosticNotes.
  destruct (LevelStats.ClipSamples lv) as [c|]; [destruct (0 <? c)|];
    (destruct (LevelStats.TruePeakDBTP lv) as [tp|];
     [destruct (-1.0 <? tp)%float|]);
    (destruct (Flatness spec) as [f|]; [destruct (0.5 <? f)%float|]);
    (destruct (Correlation st) as [co|]; [destruct (co <? 0.2)%float|]);
    cbn [app]; repeat split; intros; try discriminate;
    repeat (apply List.Forall_cons; [reflexivity|]); apply List.Forall_nil.
Qed.

(** The clipping rule runs on the count alone: when the percentage is absent
    (a probe without duration, sample rate or channels) the note prints NaN
    for it. *)
Lemma clip_note_without_percentage lv spec st c :
  LevelStats.ClipSamples lv = Some c -> (0 <? c) = true ->
  LevelStats.ClipPercent lv = None ->
  exists rest,
    diagnosticNotes lv spec st
    = ("Clipping detected: " +:+ fmt_d c +:+ " samples (NaN%)")%string :: rest.
Proof.
  intros Hc Hpos Hp. unfold diagnosticNotes. rewrite Hc, Hpos, Hp.
  destruct (LevelStats.TruePeakDBTP lv) as [tp|];
    [destruct (-1.0 <? tp)%float|];
    (destruct (Flatness spec) as [f|]; [destruct (0.5 <? f)%float|]);
    (destruct (Correlation st) as [co|]; [destruct (co <? 0.2)%float|]);
    eexists; reflexivity.
Qed.

(** C7. An analysis whose clip count is 100 and clip percentage 0.02, whose
    true peak is -0.5 dBTP, whose spectral flatness is 0.7 and whose stereo
    correlation is 0.1 carries exactly four notes, in the order clipping (with
    the percentage), true peak, flatness, correlation; and in every analysis
    a rule whose field is absent contributes no note. *)
Theorem notes_in_priority_order Log2 cfg inp t a :
  analyzeFile Log2 cfg inp t = Ok a ->
  (LevelStats.ClipSamples (Analysis.Level a) = Some 100 ->
   LevelStats.ClipPercent (Analysis.Level a) = Some 0.02%float ->
   LevelStats.TruePeakDBTP (Analysis.Level a) = Some (-0.5)%float ->
   Flatness (Analysis.Spectral a) = Some 0.7%float ->
   Correlation (Analysis.Stereo a) = Some 0.1%float ->
   Analysis.Notes a
   = [ "Clipping detected: 100 samples (0.020%)";
       "True peak dangerously high (-0.50 dBTP). Consider -1.5 dBTP ceiling.";
       "High spectral flatness → noise-like content.";
       "Low L/R correlation → wide or phasey stereo." ]%string)
  /\ (LevelStats.ClipSamples (Analysis.Level a) = None ->
      Forall (fun n => is_clip_note n = false) (Analysis.Notes a))
  /\ (LevelStats.TruePeakDBTP (Analysis.Level a) = None ->
      Forall (fun n => is_true_peak_note n = false) (Analysis.Notes a))
  /\ (Flatness (Analysis.Spectral a) = None ->
      Forall (fun n => is_flatness_note n = false) (Analysis.Notes a))
  /\ (Correlation (Analysis.Stereo a) = None ->
      Forall (fun n => is_correlation_note n = false) (Analysis.Notes a)).
Proof.
  intros H.
  destruct (analyzeFile_Ok _ _ _ _ _ H) as (probe & _ & _ & _ & _ & _ & _ & _ & _ & _ & HN).
  rewrite HN. split; [apply diagnosticNotes_four|apply diagnosticNotes_skip].
Qed.

Lemma notes_in_priority_order_witness :
  exists a,
    analyzeFile Log2_pow2 aubioConfig "take.wav"
                (sampleTools (-0.1) (-0.4) [120; 60; 180] [440])%float = Ok a
    /\ Analysis.Notes a
       = [ "Clipping detected: 100 samples (0.020%)";
           "True peak dangerously high (-0.50 dBTP). Consider -1.5 dBTP ceiling.";
           "High spectral flatness → noise-like content.";
           "Low L/R correlation → wide or phasey stereo." ]%string.
Proof.
  eexists. split; [vm_compute; reflexivity|].
  refine (proj1 (notes_in_priority_order Log2_pow2 aubioConfig "take.wav"
                   (sampleTools (-0.1) (-0.4) [120; 60; 180] [440])%float _ _)
                _ _ _ _ _);
    vm_compute; reflexivity.
Defined.

(** ** Key information *)

(** C9, amended. When aubio's key output holds no key, scale or confidence,
    the analysis carries a key record whose three fields are all absent; the
    key is absent altogether only when aubio is not installed. *)
Theorem key_without_tokens Log2 cfg inp t a :
  analyzeFile Log2 cfg inp t = Ok a ->
  keyMatch t = None -> keyConf t = None ->
  Analysis.Key a
  = if haveAubio t then
      Some {| KeyInfo.Key := None; KeyInfo.Scale := None; KeyInfo.Conf := None |}
    else None.
Proof.
  intros H Hk Hc.
  destruct (analyzeFile_Ok _ _ _ _ _ H) as (probe & _ & _ & _ & _ & _ & _ & _ & HK & _).
  rewrite HK. unfold keyInfo, aubioKey. rewrite Hk, Hc.
  destruct (haveAubio t); reflexivity.
Qed.

Lemma key_without_tokens_witness :
  exists a,
    analyzeFile Log2_pow2 defaultConfig "a.wav"
                (sampleTools (-0.1) (-0.4) [] []) = Ok a
    /\ Analysis.Key a
       = Some {| KeyInfo.Key := None; KeyInfo.Scale := None;
                 KeyInfo.Conf := None |}.
Proof.
  eexists. split; [vm_compute; reflexivity|].
  apply (key_without_tokens Log2_pow2 defaultConfig "a.wav"
           (sampleTools (-0.1) (-0.4) [] [])); reflexivity.
Defined.

(** C9 as stated fails: aubio is installed and names no key, and the key of
    the analysis is a record, not nil. *)
Lemma empty_key_record_is_present :
  exists a k,
    keyMatch (sampleTools (-0.1) (-0.4) [] []) = None
    /\ keyConf (sampleTools (-0.1) (-0.4) [] []) = None
    /\ analyzeFile Log2_pow2 defaultConfig "a.wav"
                   (sampleTools (-0.1) (-0.4) [] []) = Ok a
    /\ Analysis.Key a = Some k
    /\ k = {| KeyInfo.Key := None; KeyInfo.Scale := None; KeyInfo.Conf := None |}.
Proof.
  do 2 eexists. split; [reflexivity|]. split; [reflexivity|].
  split; [vm_compute; reflexivity|]. split; reflexivity.
Qed.

(** ** Tempo statistics *)

(** No series, no tempo statistics: an empty series is an error of
    [aubioBPMSeries]. *)
Lemma tempoStats_empty cfg t probe :
  tempoBPM t = [] -> tempoStats cfg t probe = None.
Proof.
  intros H. unfold tempoStats, aubioBPMSeries. rewrite H.
  destruct (String.eqb _ _), (haveAubio t), (tempoFailed t); reflexivity.
Qed.

(** With the aubio engine and a series, the statistics are the element at
    index [len/2] of the series as aubio printed it, its mean and its sample
    standard deviation. *)
Lemma tempoStats_series cfg t probe :
  ToLower (BPMEngine cfg) = "aubio"%string ->
  haveAubio t = true -> tempoFailed t = false -> tempoBPM t <> [] ->
  exists ts,
    tempoStats cfg t probe = Some ts
    /\ BPMMedian ts = Some (index (tempoBPM t) (length (tempoBPM t) / 2))
    /\ BPMMean ts = Some (mean (tempoBPM t))
    /\ BPMStd ts = Some (stddev (tempoBPM t) (mean (tempoBPM t))).
Proof.
  intros He Ha Hf Hs. unfold tempoStats, aubioBPMSeries.
  rewrite He, Ha, Hf. cbn.
  destruct (tempoBPM t) as [|x l] eqn:E; [congruence|]. cbn [length Nat.eqb].
  unfold aubioOnsetRate. cbn [negb].
  destruct (Duration probe <=? 0)%float; eexists; repeat split.
Qed.

Lemma stddev_one x m : stddev [x] m = 0%float.
Proof. reflexivity. Qed.

(** C3 at a series that is not sorted: aubio prints 120, 60 and 180 bpm.  The
    analysis reports the median 60, the element in the middle of the series
    as printed; the middle element of the sorted series is 120.  Mean and
    standard deviation are as the claim says. *)
Theorem tempo_median_is_not_sorted :
  tempoStats aubioConfig
             (sampleTools (-0.1) (-0.4) [120; 60; 180] [440])%float stereo20s
  = Some {| BPMMedian := Some 60%float; BPMMean := Some 120%float;
            BPMStd := Some 60%float; Events := 40;
            OnsetPerMin := Some 120%float |}
  /\ index (Float64s [120; 60; 180]%float) (length [120; 60; 180]%float / 2)
     = 120%float.
Proof. split; vm_compute; reflexivity. Qed.

(** ** The segmenter on the example of the specification *)

(** C4 as stated fails: the span from 10 to 10.5 lasts 0.5 s, less than the
    minimum of 1 s, so it is no cut and two segments result, not three. *)
Lemma short_silence_is_no_cut :
  buildSegments sampleSpans 20 1
  = [ {| start := 0; end_ := 2 |}; {| start := 4; end_ := 20 |} ]%float
  /\ buildSegments sampleSpans 20 1
     <> [ {| start := 0; end_ := 2 |}; {| start := 4; end_ := 10 |};
          {| start := 10.5; end_ := 20 |} ]%float.
Proof. split; [vm_compute; reflexivity | vm_compute; discriminate]. Qed.

(** C4, amended. With silence spans (2,4) and (10,10.5) over 20 s and a
    minimum silence of 1 s the segments are (0,2) and (4,20); a minimum of
    0.5 s gives (0,2), (4,10) and (10.5,20).  Trimming by 0.5 s moves every
    start up and every end down by 0.5, and no segment inverts; these are the
    cuts that [splitBySilence] hands to ffmpeg. *)
Theorem segmenter_example :
  buildSegments sampleSpans 20 1
  = [ {| start := 0; end_ := 2 |}; {| start := 4; end_ := 20 |} ]%float
  /\ map (trimSegment 0.5) (buildSegments sampleSpans 20 1)
     = [ {| start := 0.5; end_ := 1.5 |}; {| start := 4.5; end_ := 19.5 |} ]%float
  /\ buildSegments sampleSpans 20 0.5
     = [ {| start := 0; end_ := 2 |}; {| start := 4; end_ := 10 |};
         {| start := 10.5; end_ := 20 |} ]%float
  /\ map (trimSegment 0.5) (buildSegments sampleSpans 20 0.5)
     = [ {| start := 0.5; end_ := 1.5 |}; {| start := 4.5; end_ := 9.5 |};
         {| start := 11; end_ := 19.5 |} ]%float
  /\ Forall (fun sg => (start sg <=? end_ sg)%float = true)
            (map (trimSegment 0.5) (buildSegments sampleSpans 20 0.5))
  /\ exists a,
       analyzeFile Log2_pow2 defaultConfig "a.wav"
                   (sampleTools (-0.1) (-0.4) [] []) = Ok a
       /\ Analysis.Silence a = sampleSpans
       /\ splitBySilence (fun _ => true) a 1 0.5
          = ([ {| part := 1; ss := 0.5; to := 1.5 |};
               {| part := 2; ss := 4.5; to := 19.5 |} ]%float, None)
       /\ splitBySilence (fun _ => true) a 0.5 0.5
          = ([ {| part := 1; ss := 0.5; to := 1.5 |};
               {| part := 2; ss := 4.5; to := 9.5 |};
               {| part := 3; ss := 11; to := 19.5 |} ]%float, None).
Proof.
  repeat split; try (vm_compute; reflexivity).
  - vm_compute. repeat constructor.
  - eexists. repeat split; vm_compute; reflexivity.
Qed.

(** ** Pitch: MIDI number and note name *)

(** For a MIDI number from 0 up the name is the note at [m mod 12] followed
    by the octave [floor(m/12) - 1]. *)
Lemma midiToNoteName_nonneg m :
  0 <= m <= maxInt64 - 1200 ->
  exists name,
    notes !! Z.to_nat (m mod 12) = Some name
    /\ midiToNoteName m = Ok (name +:+ fmt_d (m / 12 - 1))%string.
Proof.
  intros Hm. unfold midiToNoteName, int_rem, int_add, int_sub, int_quo, maxInt64 in *.
  assert (Hw : forall z, - 2 ^ 63 <= z < 2 ^ 63 -> wrap64 z = z).
  { intros z Hz. unfold wrap64. rewrite Z.mod_small by lia. lia. }
  rewrite (Hw (m + 1200)) by lia.
  rewrite Z.rem_mod_nonneg by lia.
  rewrite Z.quot_div_nonneg by lia.
  assert (0 <= m / 12 <= m) by (split; [apply Z.div_pos; lia | apply Z.div_le_upper_bound; lia]).
  rewrite (Hw (m / 12)) by lia. rewrite (Hw (m / 12 - 1)) by lia.
  replace ((m + 1200) mod 12) with (m mod 12)
    by (rewrite <- (Z.mod_add m 100 12) by lia; f_equal; lia).
  pose proof (Z.mod_pos_bound m 12 ltac:(lia)) as Hb.
  destruct (Z.ltb_spec (m mod 12) 0); [lia|].
  destruct (notes !! Z.to_nat (m mod 12)) as [name|] eqn:E; [eauto|].
  apply lookup_ge_None in E. cbn in E. lia.
Qed.

(** 440 Hz is MIDI 69 and "A4", as [math.Log2] gives 0 at 1. *)
Lemma concert_pitch Log2 :
  Log2 1%float = 0%float ->
  hzToMIDI Log2 440 = 69%float
  /\ midiToNoteName (int64_of_float64 (Round (hzToMIDI Log2 440))) = Ok "A4"%string.
Proof.
  intros H. unfold hzToMIDI.
  change (440 / 440.0)%float with 1%float. rewrite H. split; reflexivity.
Qed.

(** C8 below MIDI 0: a median pitch of 6.875 Hz is 440 Hz six octaves down,
    MIDI 69 - 72 = -3, the note A of octave floor(-3/12) - 1 = -2.  The source
    divides with Go's [/], which rounds toward zero, and names it "A-1". *)
Theorem octave_truncates_below_midi_zero Log2 :
  Log2 (6.875 / 440.0)%float = (-6)%float ->
  aubioPitchStats Log2 true [6.875%float]
  = Ok {| HzMedian := Some 6.875%float; HzMean := Some 6.875%float;
          HzMin := Some 6.875%float; HzMax := Some 6.875%float;
          MIDIMedian := Some (-3)%float; Note := Some "A-1"%string |}
  /\ int64_of_float64 (Round (-3)%float) = -3
  /\ -3 / 12 - 1 = -2
  /\ int_sub (int_quo (-3) 12) 1 = -1.
Proof.
  intros H. split; [|repeat split].
  unfold aubioPitchStats, hzToMIDI.
  change (index (Float64s (List.filter (fun v => (0 <? v)%float) [6.875%float]))
                (length (Float64s (List.filter (fun v => (0 <? v)%float)
                                               [6.875%float])) / 2))
    with 6.875%float.
  rewrite H. reflexivity.
Qed.

Lemma octave_truncates_below_midi_zero_witness :
  Log2_pow2 (6.875 / 440.0)%float = (-6)%float
  /\ aubioPitchStats Log2_pow2 true [6.875%float]
     = Ok {| HzMedian := Some 6.875%float; HzMean := Some 6.875%float;
             HzMin := Some 6.875%float; HzMax := Some 6.875%float;
             MIDIMedian := Some (-3)%float; Note := Some "A-1"%string |}.
Proof.
  split; [reflexivity|].
  exact (proj1 (octave_truncates_below_midi_zero Log2_pow2 eq_refl)).
Defined.

(** * More properties of the code *)

(** ** The order of [float64] *)

Lemma SFleb_trans x y z :
  SFleb x y = true -> SFleb y z = true -> SFleb x z = true.
Proof.
  unfold SFleb.
  destruct x as [sx|sx| |sx mx ex], y as [sy|sy| |sy my ey],
           z as [sz|sz| |sz mz ez]; simpl;
    try discriminate; try reflexivity;
    try (destruct sx; discriminate); try (destruct sy; discriminate);
    try (destruct sz; discriminate);
    try (destruct sx, sy; discriminate); try (destruct sy, sz; discriminate);
    try (destruct sx, sz; discriminate || reflexivity);
    try (destruct sx, sy, sz; discriminate || reflexivity).
  change (PosDef.Pos.compare_cont Eq mx my) with (Pos.compare mx my).
  change (PosDef.Pos.compare_cont Eq my mz) with (Pos.compare my mz).
  change (PosDef.Pos.compare_cont Eq mx mz) with (Pos.compare mx mz).
  destruct sx, sy, sz; try discriminate; try reflexivity;
    destruct (Z.compare_spec ex ey), (Z.compare_spec ey ez),
             (Z.compare_spec ex ez); try lia;
    destruct (Pos.compare_spec mx my), (Pos.compare_spec my mz),
             (Pos.compare_spec mx mz);
    simpl; try discriminate; try reflexivity; try lia;
    subst; try lia.
Qed.

Lemma leb_trans x y z :
  (x <=? y)%float = true -> (y <=? z)%float = true -> (x <=? z)%float = true.
Proof. rewrite !FloatAxioms.leb_spec. apply SFleb_trans. Qed.

Lemma leb_total x y :
  IsNaN x = false -> IsNaN y = false ->
  (x <=? y)%float = false -> (y <=? x)%float = true.
Proof.
  intros Hx Hy H. apply not_ltb_leb; try assumption.
  destruct (x <? y)%float eqn:E; [|reflexivity].
  apply ltb_leb in E. congruence.
Qed.

(** ** [sort.Float64s] *)

Lemma insert_sorted_perm x l : Permutation (insert_sorted x l) (x :: l).
Proof.
  induction l as [|y r IH]; simpl; [reflexivity|].
  destruct (x <=? y)%float; [reflexivity|].
  rewrite IH. apply perm_swap.
Qed.

Lemma Float64s_perm l : Permutation (Float64s l) l.
Proof.
  induction l as [|x l IH]; simpl; [reflexivity|].
  rewrite insert_sorted_perm. now constructor.
Qed.

Lemma insert_sorted_sorted x l :
  notNaN x -> List.Forall notNaN l ->
  StronglySorted fle l -> StronglySorted fle (insert_sorted x l).
Proof.
  intros Hx Hl Hs. induction Hs as [|y r Hs IH Hy]; simpl.
  - repeat constructor.
  - inversion Hl as [|? ? Ny Nr]; subst.
    destruct (x <=? y)%float eqn:E.
    + constructor; [now constructor|].
      constructor; [exact E|].
      rewrite List.Forall_forall in Hy |- *. intros z Hz.
      eapply leb_trans; [exact E | now apply Hy].
    + constructor; [now apply IH|].
      rewrite List.Forall_forall in Hy |- *. intros z Hz.
      apply (Permutation_in _ (insert_sorted_perm x r)) in Hz as [<-|Hz].
      * now apply leb_total.
      * now apply Hy.
Qed.

Lemma Float64s_sorted l :
  List.Forall notNaN l -> StronglySorted fle (Float64s l).
Proof.
  induction 1 as [|x l Hx Hl IH]; simpl; [constructor|].
  apply insert_sorted_sorted; try assumption.
  rewrite List.Forall_forall in Hl |- *. intros z Hz.
  apply Hl. now apply (Permutation_in _ (Float64s_perm l)).
Qed.

Lemma sorted_nth_le l : StronglySorted fle l -> List.Forall notNaN l ->
  forall i j, (i <= j < length l)%nat -> fle (index l i) (index l j).
Proof.
  unfold index.
  induction 1 as [|x r Hs IH Hx]; intros Hn i j Hij; simpl in *; [lia|].
  inversion Hn as [|? ? Nx Nr]; subst.
  destruct i as [|i], j as [|j]; try lia.
  - now apply leb_refl.
  - rewrite List.Forall_forall in Hx. apply Hx, nth_In. lia.
  - apply IH; [assumption | lia].
Qed.

Lemma positive_notNaN l :
  List.Forall notNaN (List.filter (fun v => (0 <? v)%float) l).
Proof.
  rewrite List.Forall_forall. intros x Hx.
  apply filter_In in Hx as [_ Hx]. eapply ltb_notNaN_r, Hx.
Qed.

(** The pitch statistics of at least one positive estimate: the minimum, the
    median and the maximum are estimates that aubio printed, in this order,
    and every positive estimate lies between the minimum and the maximum. *)
Theorem pitch_min_median_max Log2 have parsed ps md :
  aubioPitchStats Log2 have parsed = Ok ps ->
  HzMedian ps = Some md ->
  exists mn mx,
    HzMin ps = Some mn /\ HzMax ps = Some mx
    /\ (mn <=? md)%float = true /\ (md <=? mx)%float = true
    /\ In mn parsed /\ In md parsed /\ In mx parsed
    /\ forall v, In v parsed -> (0 <? v)%float = true ->
         (mn <=? v)%float = true /\ (v <=? mx)%float = true.
Proof.
  unfold aubioPitchStats. destruct have; [|discriminate]. cbn [negb].
  set (pos := List.filter (fun v => (0 <? v)%float) parsed).
  destruct (length pos =? 0)%nat eqn:El.
  { intros [= <-]. discriminate. }
  apply Nat.eqb_neq in El.
  set (Hz := Float64s pos).
  assert (HP : Permutation Hz pos) by apply Float64s_perm.
  assert (HS : StronglySorted fle Hz) by apply Float64s_sorted, positive_notNaN.
  assert (HN : List.Forall notNaN Hz).
  { rewrite List.Forall_forall. intros z Hz'.
    pose proof (positive_notNaN parsed) as Hn. rewrite List.Forall_forall in Hn.
    apply Hn. now apply (Permutation_in _ HP). }
  assert (HL : length Hz = length pos) by apply Permutation_length, HP.
  assert (Hin : forall i, (i < length Hz)%nat -> In (index Hz i) parsed).
  { intros i Hi. assert (In (index Hz i) pos) as H.
    { apply (Permutation_in _ HP). unfold index. now apply nth_In. }
    now apply filter_In in H as [H _]. }
  unfold mbind, outcome_bind.
  destruct (midiToNoteName _) as [note|e|m]; try discriminate.
  intros [= <-]. cbn [HzMedian HzMin HzMax]. intros [= <-].
  assert (Hhalf : (length Hz / 2 < length Hz)%nat)
    by (apply Nat.div_lt; lia).
  exists (index Hz 0), (index Hz (length Hz - 1)).
  split; [reflexivity|]. split; [reflexivity|].
  split; [apply (sorted_nth_le Hz HS HN 0 (length Hz / 2)); lia|].
  split; [apply (sorted_nth_le Hz HS HN (length Hz / 2) (length Hz - 1)); lia|].
  split; [apply Hin; lia|]. split; [apply Hin, Hhalf|]. split; [apply Hin; lia|].
  intros v Hv Hpos.
  assert (In v pos) as Hv' by (apply filter_In; auto).
  apply (Permutation_in _ (Permutation_sym HP)) in Hv'.
  apply (In_nth _ _ 0%float) in Hv' as (i & Hi & <-).
  split.
  - apply (sorted_nth_le Hz HS HN 0 i). lia.
  - apply (sorted_nth_le Hz HS HN i (length Hz - 1)). lia.
Qed.

Lemma pitch_min_median_max_witness :
  exists mn mx,
    aubioPitchStats Log2_pow2 true [220; 0; 880; 440]%float
    = Ok {| HzMedian := Some 440%float; HzMean := Some (1540 / 3)%float;
            HzMin := Some mn; HzMax := Some mx;
            MIDIMedian := Some 69%float; Note := Some "A4"%string |}
    /\ (mn <=? 440)%float = true /\ (440 <=? mx)%float = true.
Proof.
  destruct (pitch_min_median_max Log2_pow2 true [220; 0; 880; 440]%float
              {| HzMedian := Some 440%float; HzMean := Some (1540 / 3)%float;
                 HzMin := Some 220%float; HzMax := Some 880%float;
                 MIDIMedian := Some 69%float; Note := Some "A4"%string |}
              440%float eq_refl eq_refl)
    as (mn & mx & [= <-] & [= <-] & H1 & H2 & _).
  exists 220%float, 880%float. auto.
Defined.



(** ** Silence detection and segmentation *)

Lemma scanSilences_output spans : forall acc,
  scanSilences (silenceOutput spans) None acc = acc ++ spans.
Proof.
  induction spans as [|[s e] rest IH]; intros acc; simpl.
  - now rewrite app_nil_r.
  - rewrite IH, <- app_assoc. reflexivity.
Qed.

(** Reading back what silencedetect prints for a list of spans gives the
    spans, in order; an end line that no start line precedes is dropped. *)
Theorem detectSilences_round_trip spans :
  detectSilences (silenceOutput spans) = spans
  /\ forall e, detectSilences ((None, Some e) :: silenceOutput spans) = spans.
Proof.
  unfold detectSilences. split; [|intros e; simpl]; apply scanSilences_output.
Qed.

Lemma last_cons {T} (l : list T) : forall x d, List.last (x :: l) d = List.last l x.
Proof.
  induction l as [|y l IH]; intros x d; [reflexivity|].
  change (List.last (x :: y :: l) d) with (List.last (y :: l) d).
  now rewrite !IH.
Qed.

Lemma cutSegments_shape m spans : forall st segs,
  cutSegments spans m st segs
  = (segs ++ map mkSegment
                 (combine (st :: map End_ (List.filter (isCut m) spans))
                          (map Start (List.filter (isCut m) spans))),
     List.last (map End_ (List.filter (isCut m) spans)) st).
Proof.
  induction spans as [|sp rest IH]; intros st segs.
  - simpl. now rewrite app_nil_r.
  - cbn [cutSegments List.filter].
    change (m <=? End_ sp - Start sp)%float with (isCut m sp).
    destruct (isCut m sp); [|apply IH].
    rewrite IH, <- app_assoc. cbn [map combine app]. f_equal.
    now rewrite last_cons.
Qed.

Lemma buildSegments_gaps spans dur minSilDur :
  buildSegments spans dur minSilDur
  = map mkSegment (combine (0%float :: map End_ (List.filter (isCut minSilDur) spans))
                           (map Start (List.filter (isCut minSilDur) spans)))
    ++ (if (List.last (map End_ (List.filter (isCut minSilDur) spans)) 0%float <? dur)%float
        then [{| start := List.last (map End_ (List.filter (isCut minSilDur) spans)) 0%float;
                 end_ := dur |}]
        else []).
Proof.
  unfold buildSegments.
  rewrite (cutSegments_shape minSilDur spans 0%float []). cbn [app].
  destruct (List.last _ 0 <? dur)%float; [reflexivity|now rewrite app_nil_r].
Qed.

Lemma buildSegments_length spans dur minSilDur :
  (length (List.filter (isCut minSilDur) spans)
   <= length (buildSegments spans dur minSilDur)
   <= length (List.filter (isCut minSilDur) spans) + 1)%nat.
Proof.
  rewrite buildSegments_gaps.
  set (q := List.filter (isCut minSilDur) spans).
  assert (HL : length (map mkSegment (combine (0%float :: map End_ q) (map Start q)))
               = length q).
  { rewrite length_map, length_combine. cbn [length]. rewrite !length_map. lia. }
  rewrite length_app, HL.
  destruct (List.last _ 0 <? dur)%float; cbn [length]; lia.
Qed.

(** The segments are the gaps between the cuts: with [q] the spans that
    last at least [minSilDur], segment [i] runs from the end of cut [i-1]
    (from 0 for the first) to the start of cut [i], and one more segment runs
    from the end of the last cut to [dur] when that end is before [dur]. *)
Theorem buildSegments_shape spans dur minSilDur :
  let q := List.filter (isCut minSilDur) spans in
  let cursor := List.last (map End_ q) 0%float in
  buildSegments spans dur minSilDur
  = map mkSegment (combine (0%float :: map End_ q) (map Start q))
    ++ (if (cursor <? dur)%float then [{| start := cursor; end_ := dur |}]
        else [])
  /\ (length q <= length (buildSegments spans dur minSilDur) <= length q + 1)%nat.
Proof.
  cbn zeta. split; [apply buildSegments_gaps|apply buildSegments_length].
Qed.

Lemma filter_none {T} (f : T -> bool) l :
  List.Forall (fun x => f x = false) l -> List.filter f l = [].
Proof.
  induction 1 as [|x l Hx Hl IH]; simpl; [reflexivity|]. now rewrite Hx.
Qed.

(** Nothing to split: when no silence span lasts [minSilDur], no file is
    cut and there is no error, whatever the trim and whether or not ffmpeg
    would work. *)
Theorem splitBySilence_without_cut run a minSilDur trim :
  List.Forall (fun s => isCut minSilDur s = false) (Analysis.Silence a) ->
  splitBySilence run a minSilDur trim = ([], None).
Proof.
  intros H. unfold splitBySilence.
  destruct (buildSegments_length (Analysis.Silence a)
              (Duration (Analysis.Probe a)) minSilDur) as [_ Hlen].
  rewrite (filter_none _ _ H) in Hlen. simpl in Hlen.
  destruct (length (buildSegments _ _ _) <=? 1)%nat eqn:E; [reflexivity|].
  apply Nat.leb_gt in E. lia.
Qed.

Lemma splitBySilence_without_cut_witness :
  exists a,
    analyzeFile Log2_pow2 defaultConfig "a.wav"
                (sampleTools (-0.1) (-0.4) [] []) = Ok a
    /\ Analysis.Silence a = sampleSpans
    /\ splitBySilence (fun _ => false) a 3 0.5 = ([], None).
Proof.
  eexists. split; [vm_compute; reflexivity|]. split; [reflexivity|].
  apply splitBySilence_without_cut. repeat constructor.
Defined.




(** ** What the optional probes leave in an analysis *)

Lemma analyzeFile_Ok_rest Log2 cfg inp t a :
  analyzeFile Log2 cfg inp t = Ok a ->
  statOK t = true
  /\ Analysis.File a = inp
  /\ Analysis.Bands a = bandStats cfg t
  /\ Analysis.Silence a = detectSilences (silenceLines t)
  /\ (Analysis.SilenceRatio a, Analysis.SilenceTotal a)
     = silenceStats (Analysis.Probe a) (Analysis.Silence a).
Proof.
  unfold analyzeFile. destruct (statOK t); [|discriminate]. cbn [negb].
  destruct (ffprobeInfo t) as [probe|e|m]; try discriminate.
  unfold mbind, outcome_bind.
  destruct (levels t) as [lv0 astatsMap].
  destruct (loudness cfg t (headroom (clipStats probe astatsMap lv0)))
    as [lufs lv].
  destruct (silenceStats probe _) as [silRatio silTotal] eqn:E.
  destruct (pitchStats Log2 t) as [ps|e|m]; try discriminate.
  intros [= <-]. cbn. rewrite E. repeat split; reflexivity.
Qed.

(** The mandatory probe gates the analysis: [analyzeFile] returns an error
    only when the input file cannot be stat'ed or ffprobe fails, and then it
    is that error; no other tool's failure is an error of the analysis. *)
Theorem analyzeFile_error_is_probe_error Log2 cfg inp t e :
  analyzeFile Log2 cfg inp t = Err e ->
  (statOK t = false /\ e = "stat"%string)
  \/ (statOK t = true /\ ffprobeInfo t = Err e).
Proof.
  unfold analyzeFile. destruct (statOK t); cbn [negb].
  - destruct (ffprobeInfo t) as [probe|e'|m]; try discriminate.
    + unfold mbind, outcome_bind.
      destruct (levels t) as [lv0 astatsMap].
      destruct (loudness cfg t _) as [lufs lv].
      destruct (silenceStats probe _) as [silRatio silTotal].
      unfold pitchStats.
      destruct (aubioPitchStats Log2 _ _) as [ps|e'|m]; discriminate.
    + intros [= ->]. auto.
  - intros [= <-]. auto.
Qed.

Lemma analyzeFile_error_is_probe_error_witness :
  analyzeFile Log2_pow2 defaultConfig "a.wav"
              (bareTools (Err "ffprobe: exit status 1") None None)
  = Err "ffprobe: exit status 1"%string
  /\ ((statOK (bareTools (Err "ffprobe: exit status 1") None None) = false
       /\ "ffprobe: exit status 1"%string = "stat"%string)
      \/ (statOK (bareTools (Err "ffprobe: exit status 1") None None) = true
          /\ ffprobeInfo (bareTools (Err "ffprobe: exit status 1") None None)
             = Err "ffprobe: exit status 1"%string)).
Proof.
  split; [reflexivity|].
  exact (analyzeFile_error_is_probe_error Log2_pow2 defaultConfig "a.wav"
           (bareTools (Err "ffprobe: exit status 1") None None) _ eq_refl).
Defined.

(** Without aubio the analysis still succeeds whenever the file exists and
    ffprobe works, whatever the other tools print: it carries the probe and
    has no tempo, no pitch and no key. *)
Theorem analyzeFile_without_aubio Log2 cfg inp t probe :
  statOK t = true -> ffprobeInfo t = Ok probe -> haveAubio t = false ->
  exists a,
    analyzeFile Log2 cfg inp t = Ok a
    /\ Analysis.Probe a = probe
    /\ Analysis.Tempo a = None
    /\ Analysis.Pitch a = None
    /\ Analysis.Key a = None.
Proof.
  intros Hs Hp Ha. unfold analyzeFile. rewrite Hs, Hp. cbn [negb].
  unfold mbind, outcome_bind.
  destruct (levels t) as [lv0 astatsMap].
  destruct (loudness cfg t _) as [lufs lv].
  destruct (silenceStats probe _) as [silRatio silTotal].
  unfold pitchStats, aubioPitchStats, keyInfo, aubioKey, tempoStats, aubioBPMSeries.
  rewrite Ha. cbn [negb]. eexists. split; [reflexivity|]. cbn.
  repeat split. now destruct (String.eqb _ _).
Qed.

Lemma analyzeFile_without_aubio_witness :
  exists a,
    analyzeFile Log2_pow2 aubioConfig "a.wav" (bareTools (Ok stereo20s) None None)
    = Ok a
    /\ Analysis.Probe a = stereo20s
    /\ Analysis.Tempo a = None /\ Analysis.Pitch a = None
    /\ Analysis.Key a = None.
Proof.
  apply analyzeFile_without_aubio; reflexivity.
Defined.

(** When volumedetect prints no peak or no mean level, the analysis does not
    fail and does not leave the levels out: peak, RMS, crest factor and
    headroom are all 0. *)
Theorem levels_zero_without_volumedetect Log2 cfg inp t a :
  analyzeFile Log2 cfg inp t = Ok a ->
  volMax t = None \/ volMean t = None ->
  let lv := Analysis.Level a in
  LevelStats.PeakDB lv = 0%float /\ LevelStats.RMSDB lv = 0%float
  /\ LevelStats.CrestDB lv = 0%float /\ LevelStats.HeadroomDB lv = 0%float.
Proof.
  intros H Hv. destruct (analyzeFile_Ok _ _ _ _ _ H) as (probe & _ & _ & HL & _).
  cbv zeta. rewrite HL.
  destruct (loudness_level cfg t
              (headroom (clipStats probe (snd (levels t)) (fst (levels t)))))
    as (-> & -> & -> & -> & _).
  unfold headroom. simpl.
  destruct (clipStats_level probe (snd (levels t)) (fst (levels t)))
    as (-> & -> & ->).
  unfold levels, ffmpegVolumedetect.
  destruct (ffmpegAstatsOverall _) as [m e].
  destruct Hv as [-> | ->]; [|destruct (volMax t)]; cbn; auto.
Qed.

Lemma levels_zero_without_volumedetect_witness :
  exists a,
    analyzeFile Log2_pow2 defaultConfig "a.wav"
                (bareTools (Ok stereo20s) (Some (-3)%float) None) = Ok a
    /\ LevelStats.PeakDB (Analysis.Level a) = 0%float
    /\ LevelStats.RMSDB (Analysis.Level a) = 0%float
    /\ LevelStats.CrestDB (Analysis.Level a) = 0%float
    /\ LevelStats.HeadroomDB (Analysis.Level a) = 0%float.
Proof.
  eexists. split; [vm_compute; reflexivity|].
  refine (levels_zero_without_volumedetect Log2_pow2 defaultConfig "a.wav"
            (bareTools (Ok stereo20s) (Some (-3)%float) None) _ _ _);
    [vm_compute; reflexivity | right; reflexivity].
Defined.

(** The loudness record is there exactly when ebur128 is enabled and prints
    an integrated loudness, and the true peak of the level statistics is the
    true peak of that record: absent without the record, and absent when the
    record has none. *)
Theorem true_peak_is_backfilled Log2 cfg inp t a :
  analyzeFile Log2 cfg inp t = Ok a ->
  (is_Some (Analysis.Loudness a)
   <-> UseEBUR128 cfg = true /\ is_Some (eburI t))
  /\ LevelStats.TruePeakDBTP (Analysis.Level a)
     = (l ← Analysis.Loudness a; TruePeak l)
  /\ (forall l, Analysis.Loudness a = Some l -> TruePeak l = eburTP t).
Proof.
  intros H.
  destruct (analyzeFile_Ok _ _ _ _ _ H) as (probe & _ & _ & HL & HU & _).
  rewrite HL, HU. clear HL HU.
  assert (HT : LevelStats.TruePeakDBTP
                 (headroom (clipStats probe (snd (levels t)) (fst (levels t))))
               = None).
  { unfold headroom. cbn.
    destruct (levels_level t) as (_ & _ & _ & _ & HT).
    unfold clipStats. destruct (_ !! _); [destruct (_ && _)|]; exact HT. }
  revert HT.
  generalize (headroom (clipStats probe (snd (levels t)) (fst (levels t)))).
  intros lv HT. unfold loudness, ffmpegEBUR128.
  destruct (UseEBUR128 cfg), (eburI t) as [i|]; cbn; (split; [|split]);
    try (intros l [=]; subst; reflexivity);
    try (destruct (eburTP t); cbn; auto; fail);
    try (split; [intros [x [=]] | intros [Hu [x Hx]]; discriminate]).
  split; eauto.
Qed.

Lemma true_peak_is_backfilled_witness :
  exists a,
    analyzeFile Log2_pow2 defaultConfig "a.wav"
                (sampleTools (-0.1) (-0.4) [] []) = Ok a
    /\ LevelStats.TruePeakDBTP (Analysis.Level a) = Some (-0.5)%float
    /\ LevelStats.TruePeakDBTP (Analysis.Level a)
       = (l ← Analysis.Loudness a; TruePeak l).
Proof.
  eexists. split; [vm_compute; reflexivity|]. split; [reflexivity|].
  refine (proj1 (proj2 (true_peak_is_backfilled Log2_pow2 defaultConfig "a.wav"
                          (sampleTools (-0.1) (-0.4) [] []) _ _))).
  vm_compute. reflexivity.
Defined.

(** The silence total is present exactly when there is a silence span, the
    silence ratio exactly when there is one and the duration is positive;
    the ratio is the total divided by the duration. *)
Theorem silence_total_and_ratio Log2 cfg inp t a :
  analyzeFile Log2 cfg inp t = Ok a ->
  (is_Some (Analysis.SilenceTotal a) <-> Analysis.Silence a <> [])
  /\ (is_Some (Analysis.SilenceRatio a)
      <-> Analysis.Silence a <> []
          /\ (0 <? Duration (Analysis.Probe a))%float = true)
  /\ (forall r, Analysis.SilenceRatio a = Some r ->
      exists total, Analysis.SilenceTotal a = Some total
        /\ r = (total / Duration (Analysis.Probe a))%float).
Proof.
  intros H. destruct (analyzeFile_Ok_rest _ _ _ _ _ H) as (_ & _ & _ & _ & HS).
  revert HS. unfold silenceStats.
  destruct (Analysis.Silence a) as [|sp rest]; cbn [length Nat.ltb Nat.leb].
  - intros [= -> ->]. split; [|split].
    + split; [intros [x [=]] | congruence].
    + split; [intros [x [=]] | intros [? _]; congruence].
    + intros r [=].
  - destruct (0 <? Duration (Analysis.Probe a))%float; intros [= -> ->];
      (split; [|split]).
    + split; [discriminate | eauto].
    + split; [split; [discriminate | reflexivity] | eauto].
    + intros r [= <-]. eauto.
    + split; [discriminate | eauto].
    + split; [intros [x [=]] | intros [_ [=]]].
    + intros r [=].
Qed.

Lemma silence_total_and_ratio_witness :
  exists a,
    analyzeFile Log2_pow2 defaultConfig "a.wav"
                (sampleTools (-0.1) (-0.4) [] []) = Ok a
    /\ Analysis.SilenceTotal a = Some 2.5%float
    /\ Analysis.SilenceRatio a = Some 0.125%float
    /\ (is_Some (Analysis.SilenceTotal a) <-> Analysis.Silence a <> []).
Proof.
  eexists. split; [vm_compute; reflexivity|].
  split; [reflexivity|]. split; [reflexivity|].
  refine (proj1 (silence_total_and_ratio Log2_pow2 defaultConfig "a.wav"
                   (sampleTools (-0.1) (-0.4) [] []) _ _)).
  vm_compute. reflexivity.
Defined.

(** Tempo statistics are there exactly when the engine is aubio, aubio is
    installed, its tempo run gave output and a bpm value was read.  They then
    hold a median, a mean and a standard deviation, the number of onsets
    counted, and an onset rate unless the duration is zero or negative. *)
Theorem tempo_presence Log2 cfg inp t a :
  analyzeFile Log2 cfg inp t = Ok a ->
  (is_Some (Analysis.Tempo a)
   <-> ToLower (BPMEngine cfg) = "aubio"%string /\ haveAubio t = true
       /\ tempoFailed t = false /\ tempoBPM t <> [])
  /\ (forall ts, Analysis.Tempo a = Some ts ->
      is_Some (BPMMedian ts) /\ is_Some (BPMMean ts) /\ is_Some (BPMStd ts)
      /\ Events ts = onsetCount t
      /\ OnsetPerMin ts
         = if (Duration (Analysis.Probe a) <=? 0)%float then None
           else Some (float64_of_int (onsetCount t)
                      / (Duration (Analysis.Probe a) / 60.0))%float).
Proof.
  intros H.
  destruct (analyzeFile_Ok _ _ _ _ _ H)
    as (probe & _ & HP & _ & _ & _ & _ & HT & _).
  rewrite HT, HP. clear HT HP. unfold tempoStats, aubioBPMSeries, aubioOnsetRate.
  destruct (String.eqb_spec (ToLower (BPMEngine cfg)) "aubio") as [He|He];
    [|split; [split; [intros [x [=]] | intros [? _]; congruence] | intros ts [=]]].
  destruct (haveAubio t); cbn [negb];
    [|split; [split; [intros [x [=]] | intros (_ & [=] & _)] | intros ts [=]]].
  destruct (tempoFailed t);
    [split; [split; [intros [x [=]] | intros (_ & _ & [=] & _)] | intros ts [=]]|].
  destruct (tempoBPM t) as [|x l]; cbn [length Nat.eqb];
    [split; [split; [intros [x [=]] | intros (_ & _ & _ & ?); congruence]
            | intros ts [=]]|].
  destruct (Duration probe <=? 0)%float; split;
    try (split; [intros _; repeat split; congruence | intros _; eauto]);
    intros ts [= <-]; cbn; repeat split; eauto.
Qed.

Lemma tempo_presence_witness :
  exists a ts,
    analyzeFile Log2_pow2 aubioConfig "take.wav"
                (sampleTools (-0.1) (-0.4) [120; 60; 180] [440])%float = Ok a
    /\ Analysis.Tempo a = Some ts
    /\ Events ts = 40 /\ OnsetPerMin ts = Some 120%float.
Proof.
  do 2 eexists. split; [vm_compute; reflexivity|]. split; [reflexivity|].
  destruct (proj2 (tempo_presence Log2_pow2 aubioConfig "take.wav"
                     (sampleTools (-0.1) (-0.4) [120; 60; 180] [440])%float
                     _ eq_refl) _ eq_refl)
    as (_ & _ & _ & He & Ho).
  split; [exact He | exact Ho].
Defined.



(** ** The diagnostic notes, rule by rule *)

(** Each rule leaves a note exactly when its field is present and beyond the
    threshold: a clipping note for a positive clip count, a true-peak note
    above -1 dBTP, a flatness note above 0.5, a correlation note below 0.2;
    there are never more than four notes. *)
Theorem notes_fire_on_thresholds lv spec st :
  let ns := diagnosticNotes lv spec st in
  (Exists (fun n => is_clip_note n = true) ns
   <-> exists c, LevelStats.ClipSamples lv = Some c /\ 0 < c)
  /\ (Exists (fun n => is_true_peak_note n = true) ns
      <-> exists tp, LevelStats.TruePeakDBTP lv = Some tp
                     /\ (-1.0 <? tp)%float = true)
  /\ (Exists (fun n => is_flatness_note n = true) ns
      <-> exists f, Flatness spec = Some f /\ (0.5 <? f)%float = true)
  /\ (Exists (fun n => is_correlation_note n = true) ns
      <-> exists c, Correlation st = Some c /\ (c <? 0.2)%float = true)
  /\ (length ns <= 4)%nat.
Proof.
  unfold diagnosticNotes.
  destruct (LevelStats.ClipSamples lv) as [c|]; [destruct (Z.ltb_spec 0 c)|];
    (destruct (LevelStats.TruePeakDBTP lv) as [tp|];
     [destruct (-1.0 <? tp)%float eqn:?|]);
    (destruct (Flatness spec) as [f|]; [destruct (0.5 <? f)%float eqn:?|]);
    (destruct (Correlation st) as [co|]; [destruct (co <? 0.2)%float eqn:?|]);
    cbn [app length];
    (split; [|split; [|split; [|split; [|lia]]]]);
    (split;
     [ intros HE;
       repeat (apply List.Exists_cons in HE as [HE|HE]; [try discriminate HE|]);
       try (apply List.Exists_nil in HE; contradiction); eauto
     | intros (x & [= <-] & Hx); try congruence; try lia;
       repeat first [ apply List.Exists_cons_hd; reflexivity
                    | apply List.Exists_cons_tl ] ]).
Qed.

(** ** Note names over the whole range of MIDI numbers *)

(** From MIDI -1200 up [midiToNoteName] does not panic: the name is the
    pitch class [m mod 12], which is right for negative numbers too, followed
    by [m/12 - 1] with the quotient rounded toward zero. *)
Theorem midiToNoteName_from_minus_1200 m :
  -1200 <= m <= maxInt64 - 1200 ->
  exists name,
    notes !! Z.to_nat (m mod 12) = Some name
    /\ midiToNoteName m = Ok (name +:+ fmt_d (Z.quot m 12 - 1))%string.
Proof.
  intros Hm. unfold midiToNoteName, int_rem, int_add, int_sub, int_quo, maxInt64 in *.
  assert (Hw : forall z, - 2 ^ 63 <= z < 2 ^ 63 -> wrap64 z = z).
  { intros z Hz. unfold wrap64. rewrite Z.mod_small by lia. lia. }
  rewrite (Hw (m + 1200)) by lia.
  rewrite Z.rem_mod_nonneg by lia.
  assert (Hq : - 2 ^ 62 <= Z.quot m 12 <= 2 ^ 62).
  { pose proof (Z.quot_rem' m 12). pose proof (Z.rem_bound_abs m 12 ltac:(lia)).
    lia. }
  rewrite (Hw (Z.quot m 12)) by lia. rewrite (Hw (Z.quot m 12 - 1)) by lia.
  replace ((m + 1200) mod 12) with (m mod 12)
    by (rewrite <- (Z.mod_add m 100 12) by lia; f_equal; lia).
  pose proof (Z.mod_pos_bound m 12 ltac:(lia)) as Hb.
  destruct (Z.ltb_spec (m mod 12) 0); [lia|].
  destruct (notes !! Z.to_nat (m mod 12)) as [name|] eqn:E; [eauto|].
  apply lookup_ge_None in E. cbn in E. lia.
Qed.

Lemma midiToNoteName_from_minus_1200_witness :
  exists name,
    notes !! Z.to_nat (-3 mod 12) = Some name
    /\ midiToNoteName (-3) = Ok (name +:+ fmt_d (Z.quot (-3) 12 - 1))%string.
Proof.
  apply (midiToNoteName_from_minus_1200 (-3)). unfold maxInt64. lia.
Defined.

(** ** [clamp01] *)

(** [clamp01] maps every number into the interval from 0 to 1, leaves the
    numbers of the interval and NaN as they are, and clamping twice is
    clamping once. *)
Theorem clamp01_range x :
  (IsNaN x = false ->
   (0 <=? clamp01 x)%float = true /\ (clamp01 x <=? 1)%float = true)
  /\ ((0 <=? x)%float = true -> (x <=? 1)%float = true -> clamp01 x = x)
  /\ (IsNaN x = true -> clamp01 x = x)
  /\ clamp01 (clamp01 x) = clamp01 x.
Proof.
  unfold clamp01.
  destruct (x <? 0)%float eqn:E0; [|destruct (1 <? x)%float eqn:E1].
  - repeat split; try reflexivity.
    + intros H0 _. apply leb_notNaN_r in H0 as Hn.
      assert (Hx : (x <=? 0)%float = true) by now apply ltb_leb.
      to_SF. change (Prim2SF 0) with (S754_zero false) in *.
      destruct (Prim2SF x) as [s|s| |s m e]; try discriminate; destruct s; discriminate.
    + intros Hn. apply ltb_notNaN_l in E0. congruence.
  - repeat split; try reflexivity.
    + intros _ H1. to_SF. rewrite (SFcompare_antisym (Prim2SF x) (Prim2SF 1)) in E1.
      destruct (SFcompare (Prim2SF x) (Prim2SF 1)) as [[]|]; discriminate.
    + intros Hn. apply ltb_notNaN_r in E1. congruence.
  - rewrite E0, E1. repeat split; try reflexivity.
    + apply not_ltb_leb; auto.
    + apply not_ltb_leb; auto.
Qed.

Lemma clamp01_range_witness :
  (0 <=? clamp01 1.5)%float = true /\ (clamp01 1.5 <=? 1)%float = true.
Proof. apply (proj1 (clamp01_range 1.5%float)). reflexivity. Defined.

(** ** What a diff holds and what its reports show *)

(** The three metrics a diff holds for two-sided optional fields only. *)
Lemma compare_optional_deltas (a b : Analysis) :
  let d := Delta (compare a b) in
  d !! "bpm_median"%string
  = (ta ← Analysis.Tempo a; tb ← Analysis.Tempo b;
     ma ← BPMMedian ta; mb ← BPMMedian tb; Some (mb - ma)%float)
  /\ d !! "lufs_integrated"%string
     = (ua ← Analysis.Loudness a; ub ← Analysis.Loudness b;
        Some (Integrated ub - Integrated ua)%float)
  /\ d !! "lufs_range"%string
     = (ua ← Analysis.Loudness a; ub ← Analysis.Loudness b;
        Some (Range ub - Range ua)%float).
Proof.
  unfold compare. cbn.
  destruct (Analysis.Loudness a) as [ua|], (Analysis.Loudness b) as [ub|];
    (destruct (Analysis.Tempo a) as [ta|]; cbn;
     [destruct (BPMMedian ta) as [ma|]; cbn|]);
    (destruct (Analysis.Tempo b) as [tb|]; cbn;
     [destruct (BPMMedian tb) as [mb|]; cbn|]);
    repeat split; now simplify_map_eq.
Qed.

Lemma compare_other_keys (a b : Analysis) k :
  ~ In k deltaKeys -> Delta (compare a b) !! k = None.
Proof.
  intros Hk. unfold compare. cbn [Delta].
  assert (forall k', In k' deltaKeys -> k' <> k) as Hne by (intros k' H <-; auto).
  destruct (Analysis.Loudness a) as [ua|], (Analysis.Loudness b) as [ub|];
    (destruct (Analysis.Tempo a) as [ta|]; [destruct (BPMMedian ta) as [ma|]|]);
    (destruct (Analysis.Tempo b) as [tb|]; [destruct (BPMMedian tb) as [mb|]|]);
    cbn; rewrite ?lookup_insert_ne by (apply Hne; simpl; tauto);
    apply lookup_empty.
Qed.

Lemma compare_keys_in_catalogue (a b : Analysis) k :
  is_Some (Delta (compare a b) !! k) -> In k deltaKeys.
Proof.
  intros Hk. destruct (in_dec string_dec k deltaKeys) as [Hin|Hout]; [exact Hin|].
  rewrite (compare_other_keys a b k Hout) in Hk. destruct Hk; discriminate.
Qed.

(** Every key of a delta map is one of the eight that the plain-text report
    walks through; the five level, stereo and duration keys are always
    there, and comparing B with A gives the same keys as comparing A with
    B. *)
Theorem compare_keys (a b : Analysis) :
  (forall k, is_Some (Delta (compare a b) !! k) -> In k deltaKeys)
  /\ (forall k, In k ["peak_db"; "rms_db"; "crest_db"; "stereo_side_mid_db";
                      "duration_s"]%string ->
      is_Some (Delta (compare a b) !! k))
  /\ (forall k, is_Some (Delta (compare a b) !! k)
                <-> is_Some (Delta (compare b a) !! k)).
Proof.
  assert (D : forall k, {In k deltaKeys} + {~ In k deltaKeys})
    by (intros k; apply in_dec, string_dec).
  assert (P : forall x y k,
    In k ["peak_db"; "rms_db"; "crest_db"; "stereo_side_mid_db"; "duration_s"]%string ->
    is_Some (Delta (compare x y) !! k)).
  { intros x y k Hk. destruct (compare_level_deltas x y) as (H1 & H2 & H3 & H4 & H5).
    cbv zeta in *. simpl in Hk.
    destruct Hk as [<-|[<-|[<-|[<-|[<-|[]]]]]]; eauto. }
  assert (S : forall x y k, is_Some (Delta (compare x y) !! k) ->
                            is_Some (Delta (compare y x) !! k)).
  { intros x y k Hk. destruct (D k) as [Hin|Hout];
      [|rewrite (compare_other_keys x y k Hout) in Hk; destruct Hk; discriminate].
    destruct (compare_optional_deltas x y) as (T1 & L1 & R1).
    destruct (compare_optional_deltas y x) as (T2 & L2 & R2).
    cbv zeta in *. simpl in Hin.
    destruct Hin as [<-|[<-|[<-|[<-|[<-|[<-|[<-|[<-|[]]]]]]]]];
      try (apply P; simpl; tauto).
    - rewrite L1 in Hk. rewrite L2.
      destruct (Analysis.Loudness x), (Analysis.Loudness y);
        cbn in *; try (destruct Hk; discriminate); eauto.
    - rewrite R1 in Hk. rewrite R2.
      destruct (Analysis.Loudness x), (Analysis.Loudness y);
        cbn in *; try (destruct Hk; discriminate); eauto.
    - rewrite T1 in Hk. rewrite T2.
      destruct (Analysis.Tempo x) as [tx|], (Analysis.Tempo y) as [ty|];
        cbn in *; try (destruct Hk; discriminate).
      destruct (BPMMedian tx), (BPMMedian ty);
        cbn in *; try (destruct Hk; discriminate); eauto. }
  split; [|split].
  - intros k. apply compare_keys_in_catalogue.
  - apply P.
  - intros k. split; apply S.
Qed.

Lemma printedDeltas_In (d : Diff) k v :
  In (k, v) (printedDeltas d)
  <-> In k deltaKeys /\ Delta d !! k = Some v
      /\ IsNaN v = false /\ IsInf v 0 = false.
Proof.
  unfold printedDeltas. rewrite <- list_elem_of_In, list_elem_of_omap. split.
  - intros (k' & Hk' & Hf). apply list_elem_of_In in Hk'.
    destruct (Delta d !! k') as [v'|] eqn:E; [|discriminate].
    destruct (IsNaN v') eqn:En, (IsInf v' 0) eqn:Ei; try discriminate.
    cbn in Hf. injection Hf as <- <-. auto.
  - intros (Hk & Hl & Hn & Hi). exists k. split; [now apply list_elem_of_In|].
    now rewrite Hl, Hn, Hi.
Qed.

Lemma printedDeltas_keys (d : Diff) keys :
  let f := fun k =>
    match Delta d !! k with
    | Some v => if negb (IsNaN v) && negb (IsInf v 0) then Some (k, v) else None
    | None => None
    end in
  List.NoDup keys -> List.NoDup (map fst (omap f keys)).
Proof.
  cbn zeta. induction 1 as [|k keys Hk Hnd IH]; cbn; [constructor|].
  destruct (Delta d !! k) as [v|]; [|exact IH].
  destruct (negb (IsNaN v) && negb (IsInf v 0)); [|exact IH].
  cbn. constructor; [|exact IH]. intros Hin. apply Hk.
  apply in_map_iff in Hin as ([k' v'] & <- & Hin).
  apply list_elem_of_In, list_elem_of_omap in Hin as (k'' & Hk'' & Hf).
  destruct (Delta d !! k'') as [v''|]; [|discriminate].
  destruct (negb (IsNaN v'') && negb (IsInf v'' 0)); [|discriminate].
  injection Hf as <- <-. now apply list_elem_of_In.
Qed.

(** The plain-text report of a diff shows every entry of the delta map that
    is neither NaN nor infinite, and nothing else; no metric is shown
    twice. *)
Theorem text_diff_shows_every_finite_delta (a b : Analysis) :
  (forall k v,
     In (k, v) (printedDeltas (compare a b))
     <-> Delta (compare a b) !! k = Some v
         /\ IsNaN v = false /\ IsInf v 0 = false)
  /\ List.NoDup (map fst (printedDeltas (compare a b))).
Proof.
  split.
  - intros k v. rewrite printedDeltas_In. split; [tauto|].
    intros (Hl & Hn & Hi). split; [|auto].
    apply (compare_keys_in_catalogue a b). rewrite Hl. eauto.
  - apply printedDeltas_keys. unfold deltaKeys.
    repeat (constructor; [simpl; intuition discriminate|]). constructor.
Qed.

(** In the markdown table of a diff, the delta of every row is the float64
    difference of the two values shown in that row, B - A; no row shows the
    zero of a missing key. *)
Theorem markdown_diff_rows_are_differences (a b : Analysis) r :
  In r (mdRows (compare a b)) ->
  delta r = (valueB r - valueA r)%float
  /\ exists k, Delta (compare a b) !! k = Some (delta r).
Proof.
  destruct (compare_level_deltas a b) as (H1 & H2 & H3 & H4 & H5).
  destruct (compare_optional_deltas a b) as (T & L & R).
  cbv zeta in *. unfold mdRows, deltaAt.
  change (A (compare a b)) with a. change (B (compare a b)) with b.
  rewrite H1, H2, H3, H4, H5, T, L, R. cbn [default].
  intros Hin. repeat (apply in_app_or in Hin as [Hin|Hin]).
  - simpl in Hin.
    destruct Hin as [<-|[<-|[<-|[]]]]; cbn [delta valueA valueB]; eauto.
  - destruct (Analysis.Loudness a) as [ua|], (Analysis.Loudness b) as [ub|];
      simpl in Hin; try contradiction.
    destruct Hin as [<-|[<-|[]]];
      cbn [delta valueA valueB default mbind option_bind] in *; eauto.
  - simpl in Hin. destruct Hin as [<-|[]]; cbn [delta valueA valueB]; eauto.
  - destruct (Analysis.Tempo a) as [ta|], (Analysis.Tempo b) as [tb|];
      simpl in Hin; try contradiction.
    cbn [mbind option_bind] in *.
    destruct (BPMMedian ta) as [ma|], (BPMMedian tb) as [mb|];
      simpl in Hin; try contradiction.
    destruct Hin as [<-|[]];
      cbn [delta valueA valueB default mbind option_bind] in *; eauto.
  - simpl in Hin. destruct Hin as [<-|[]]; cbn [delta valueA valueB]; eauto.
Qed.

Lemma markdown_diff_rows_are_differences_witness :
  exists a b r,
    analyzeFile Log2_pow2 defaultConfig "a.wav"
                (sampleTools (-0.1) (-0.4) [] []) = Ok a
    /\ analyzeFile Log2_pow2 defaultConfig "b.wav"
                   (sampleTools 0 (-0.2) [] []) = Ok b
    /\ nth_error (mdRows (compare a b)) 2 = Some r
    /\ metric r = "Crest dB"%string
    /\ delta r = (valueB r - valueA r)%float.
Proof.
  do 3 eexists.
  split; [vm_compute; reflexivity|]. split; [vm_compute; reflexivity|].
  split; [reflexivity|]. split; [reflexivity|].
  refine (proj1 (markdown_diff_rows_are_differences _ _ _ _)).
  right. right. left. reflexivity.
Defined.

(** ** [parseBands] *)

(** Whatever the band flag holds, every band that [parseBands] returns has
    a positive lower edge below its upper edge, and there are no more bands
    than comma-separated parts: a part that is empty, has no or several
    dashes, or gives edges out of order is skipped. *)
Theorem parseBands_bands_are_ordered TrimSpace ParseFloat s :
  List.Forall (fun b => (0 <? Lo b)%float = true /\ (Lo b <? Hi b)%float = true)
              (parseBands TrimSpace ParseFloat s)
  /\ (length (parseBands TrimSpace ParseFloat s) <= length (Split s ","))%nat.
Proof.
  unfold parseBands.
  set (step := fun (out : list Bandspec) (part : string) => _).
  assert (G : forall parts out,
    List.Forall (fun b => (0 <? Lo b)%float = true /\ (Lo b <? Hi b)%float = true) out ->
    List.Forall (fun b => (0 <? Lo b)%float = true /\ (Lo b <? Hi b)%float = true)
                (fold_left step parts out)
    /\ (length (fold_left step parts out) <= length out + length parts)%nat).
  { induction parts as [|p rest IH]; intros out Hout; cbn [fold_left length].
    - split; [exact Hout | lia].
    - assert (Hs : List.Forall
                     (fun b => (0 <? Lo b)%float = true /\ (Lo b <? Hi b)%float = true)
                     (step out p)
                   /\ (length (step out p) <= length out + 1)%nat).
      { unfold step. destruct (String.eqb _ _); [split; [auto|lia]|].
        destruct (negb _); [split; [auto|lia]|].
        set (lo := ParseFloat (TrimSpace (chunk (Split (TrimSpace p) "-") 0))).
        set (hi := ParseFloat (TrimSpace (chunk (Split (TrimSpace p) "-") 1))).
        destruct (0 <? lo)%float eqn:E1; cbn [andb]; [|split; [auto|lia]].
        destruct (lo <? hi)%float eqn:E2; [|split; [auto|lia]].
        split; [|rewrite length_app; simpl; lia].
        apply Forall_app; split; [exact Hout|]. constructor; [|constructor].
        cbn. auto. }
      destruct Hs as [Hs1 Hs2]. destruct (IH (step out p) Hs1) as [H1 H2].
      split; [exact H1 | lia]. }
  destruct (G (Split s ",") [] (List.Forall_nil _)) as [H1 H2].
  split; [exact H1 | simpl in H2; exact H2].
Qed.

(** ** The standard deviation *)

Lemma binary_round_aux_sign sx mx ex lx :
  match binary_round_aux prec emax sx mx ex lx with
  | S754_zero s | S754_infinity s | S754_finite s _ _ => s = sx
  | S754_nan => True
  end.
Proof.
  unfold binary_round_aux.
  destruct (shr_fexp prec emax mx ex lx) as [mrs' e'].
  destruct (shr_fexp prec emax _ e' loc_Exact) as [mrs'' e''].
  destruct (shr_m mrs'') as [|p|p]; auto.
  destruct (e'' <=? emax - prec); reflexivity.
Qed.

Lemma Sqrt_not_negative x : (Sqrt x <? 0)%float = false.
Proof.
  unfold Sqrt. rewrite FloatAxioms.ltb_spec, sqrt_spec.
  change (Prim2SF 0) with (S754_zero false).
  unfold SF64sqrt, SFsqrt, SFltb.
  destruct (Prim2SF x) as [s|s| |s m e]; try reflexivity.
  - destruct s; reflexivity.
  - destruct s; [reflexivity|].
    destruct (SFsqrt_core_binary prec emax (Z.pos m) e) as [[mz ez] lz].
    pose proof (binary_round_aux_sign false mz ez lz) as H.
    destruct (binary_round_aux prec emax false mz ez lz) as [s|s| |s m' e'];
      try reflexivity; subst s; reflexivity.
Qed.

(** The standard deviation is never negative (it may be NaN), and it is 0
    for fewer than two values, whatever the mean passed in. *)
Theorem stddev_never_negative xs m :
  (stddev xs m <? 0)%float = false
  /\ ((length xs < 2)%nat -> stddev xs m = 0%float).
Proof.
  unfold stddev. destruct (Nat.ltb_spec (length xs) 2).
  - split; [reflexivity | auto].
  - split; [apply Sqrt_not_negative | lia].
Qed.

(** ** Key and pitch in an analysis *)




